(** * Local order book maintenance: array merge and red-black tree managers

    Shallow embedding of [orderbook.merge.js] (class [BybitOrderBookManager])
    and [orderbook.Btree.js] (class [OrderBookManager]).

    Conventions of the embedding.
    - A price level is the two-element array [[price, size]] built by
      [[Number(p), Number(q)]].  Prices and sizes are finite numbers; every
      comparison in the code only looks at the sign of a difference or tests
      against zero, so numbers are embedded as integers (ticks and lots).
      [NaN] and the infinities are outside the model.
    - The raw feed values and the conversion [Number] are parameters.
    - A method is a function from the manager before the call to a
      completion (normal, or a thrown exception identified by its [name])
      and the manager after the call.
    - The timing samples ([process.hrtime], [Date.now], [memoryUsage]) are
      left out of the state; the counters kept next to them are modelled. *)

From Equations Require Import Equations.
From stdpp Require Import gmap strings list sorting.
From Stdlib Require Import DecimalString.

Local Open Scope Z_scope.

(** ** Shared vocabulary *)

(** [[price, size]] *)
Abbreviation level := (Z * Z)%type.

(** How a call ends. *)
Inductive completion (A : Type) : Type :=
  | Normal (v : A)
  | Throw (name : string).
Arguments Normal {A} v.
Arguments Throw {A} name.

(** The payload [data.data] of a feed message: the properties [b] and [a],
    each possibly absent. *)
Record data (raw : Type) : Type := Data {
  field_b : option (list (raw * raw));
  field_a : option (list (raw * raw))
}.
Arguments Data {raw} _ _.
Arguments field_b {raw} _.
Arguments field_a {raw} _.

(** [([p, q]) => [Number(p), Number(q)]] *)
Definition to_level {raw : Type} (Number : raw → Z) (pq : raw * raw) : level :=
  (Number pq.1, Number pq.2).

(** [x || []] *)
Definition or_empty {A : Type} (x : option (list A)) : list A :=
  match x with
  | Some l => l
  | None => []
  end.

(** [x?.length > 0] *)
Definition has_entries {A : Type} (x : option (list A)) : bool :=
  match x with
  | Some (_ :: _) => true
  | _ => false
  end.

Definition inspect {A : Type} (x : A) : {y : A | x = y} := exist _ x eq_refl.

(** The calls the ['update'] handler makes for one instrument:
    [processSnapshot] for a message of type [snapshot], [processDelta] for a
    message of type [delta]. *)
Inductive event (raw : Type) : Type :=
  | Snapshot (d : data raw)
  | Delta (d : data raw).
Arguments Snapshot {raw} d.
Arguments Delta {raw} d.

(** Decimal integer literals, the raw values used in the worked examples. *)
Definition decimal (s : string) : Z :=
  match NilZero.int_of_string s with
  | Some d => Z.of_int d
  | None => 0
  end.

(** ** [orderbook.merge.js] *)

Module BybitOrderBookManager.

(** [{ bids: [], asks: [] }] *)
Record book : Type := Book {
  bids : list level;
  asks : list level
}.

(** [this.stats], counters only. *)
Record counters : Type := Counters {
  snapshotCount : nat;
  deltaCount : nat;
  getOrderBookCount : nat
}.

Record t : Type := Manager {
  orderBooks : gmap string book;
  stats : counters
}.

Definition constructor : t :=
  Manager ∅ (Counters 0 0 0).

Definition initialize (pairs : list string) (this : t) : t :=
  Manager
    (foldl (λ m pair, <[pair := Book [] []]> m) (orderBooks this) pairs)
    (stats this).

(** [if (updates[j][1] !== 0) merged.push(updates[j])] *)
Definition push_update (merged : list level) (u : level) : list level :=
  if bool_decide (u.2 ≠ 0) then merged ++ [u] else merged.

(** First loop: [while (i < current.length && j < updates.length)].
    The guard holds exactly when both [current[i]] and [updates[j]]
    exist. The loop returns the values of [i], [j] and [merged] at exit. *)
Equations? merge_while (current updates : list level) (ascending : bool)
    (i j : nat) (merged : list level) : nat * nat * list level
    by wf ((length current - i) + (length updates - j))%nat lt :=
  merge_while current updates ascending i j merged
    with inspect (current !! i), inspect (updates !! j) := {
    | exist _ (Some c) Hc, exist _ (Some u) Hu =>
        let cmp := if ascending then c.1 - u.1 else u.1 - c.1 in
        if bool_decide (cmp < 0) then
          merge_while current updates ascending (S i) j (merged ++ [c])
        else if bool_decide (cmp > 0) then
          merge_while current updates ascending i (S j) (push_update merged u)
        else
          merge_while current updates ascending (S i) (S j) (push_update merged u)
    | _, _ => (i, j, merged) }.
Proof.
  all: apply lookup_lt_Some in Hc; apply lookup_lt_Some in Hu; lia.
Qed.

(** Second loop: [while (i < current.length) merged.push(current[i++])]. *)
Equations? rest_current (current : list level) (i : nat) (merged : list level) :
    list level by wf (length current - i)%nat lt :=
  rest_current current i merged with inspect (current !! i) := {
    | exist _ (Some c) Hc => rest_current current (S i) (merged ++ [c])
    | exist _ None _ => merged }.
Proof.
  apply lookup_lt_Some in Hc; lia.
Qed.

(** Third loop: [while (j < updates.length) { ...; j++ }]. *)
Equations? rest_updates (updates : list level) (j : nat) (merged : list level) :
    list level by wf (length updates - j)%nat lt :=
  rest_updates updates j merged with inspect (updates !! j) := {
    | exist _ (Some u) Hu => rest_updates updates (S j) (push_update merged u)
    | exist _ None _ => merged }.
Proof.
  apply lookup_lt_Some in Hu; lia.
Qed.

Definition mergeSortedUpdates (current updates : list level) (ascending : bool) :
    list level :=
  let '(i, j, merged) := merge_while current updates ascending 0 0 [] in
  let merged := rest_current current i merged in
  rest_updates updates j merged.

Section Methods.
Context {raw : Type} (Number : raw → Z).

Definition processSnapshot (pair : string) (snapshot : data raw) (this : t) :
    completion () * t :=
  match orderBooks this !! pair with
  | None => (Throw "TypeError", this)
  | Some _ =>
      let orderBook :=
        Book (to_level Number <$> or_empty (field_b snapshot))
             (to_level Number <$> or_empty (field_a snapshot)) in
      (Normal (),
       Manager (<[pair := orderBook]> (orderBooks this))
         (Counters (S (snapshotCount (stats this)))
                   (deltaCount (stats this))
                   (getOrderBookCount (stats this))))
  end.

Definition processDelta (pair : string) (delta : data raw) (this : t) :
    completion () * t :=
  let orderBook := orderBooks this !! pair in
  (* if (delta.b?.length > 0) *)
  let after_b : completion () * option book :=
    if has_entries (field_b delta) then
      match orderBook with
      | None => (Throw "TypeError", orderBook)
      | Some bk =>
          let bidUpdates := to_level Number <$> or_empty (field_b delta) in
          (Normal (),
           Some (Book (mergeSortedUpdates (bids bk) bidUpdates false) (asks bk)))
      end
    else (Normal (), orderBook) in
  match after_b with
  | (Throw e, _) => (Throw e, this)
  | (Normal _, orderBook) =>
      (* if (delta.a?.length > 0) *)
      let after_a : completion () * option book :=
        if has_entries (field_a delta) then
          match orderBook with
          | None => (Throw "TypeError", orderBook)
          | Some bk =>
              let askUpdates := to_level Number <$> or_empty (field_a delta) in
              (Normal (),
               Some (Book (bids bk) (mergeSortedUpdates (asks bk) askUpdates true)))
          end
        else (Normal (), orderBook) in
      match after_a with
      | (Throw e, _) => (Throw e, this)
      | (Normal _, orderBook) =>
          (Normal (),
           Manager
             match orderBook with
             | Some bk => <[pair := bk]> (orderBooks this)
             | None => orderBooks this
             end
             (Counters (snapshotCount (stats this))
                       (S (deltaCount (stats this)))
                       (getOrderBookCount (stats this))))
      end
  end.
End Methods.

(** [l.slice(0, end)]: a negative [end] counts from the end of the array. *)
Definition slice0 {A : Type} (l : list A) (end_ : Z) : list A :=
  let len := Z.of_nat (length l) in
  let final := if bool_decide (end_ < 0) then Z.max (len + end_) 0 else Z.min end_ len in
  take (Z.to_nat final) l.

Record result : Type := Result {
  buyOrderBook : list level;
  sellOrderBook : list level
}.

(** [getOrderBook(pair, depth = 200)]; [None] is an omitted argument. *)
Definition getOrderBook (pair : string) (depth : option Z) (this : t) :
    completion result * t :=
  let depth := default 200 depth in
  match orderBooks this !! pair with
  | None => (Throw "TypeError", this)
  | Some bk =>
      (Normal (Result (slice0 (bids bk) depth) (slice0 (asks bk) depth)),
       Manager (orderBooks this)
         (Counters (snapshotCount (stats this))
                   (deltaCount (stats this))
                   (S (getOrderBookCount (stats this)))))
  end.

(** The body of the ['update'] handler for one message. *)
Definition on_update {raw : Type} (Number : raw → Z) (pair : string)
    (ev : event raw) (this : t) : completion () * t :=
  match ev with
  | Snapshot d => processSnapshot Number pair d this
  | Delta d =>
      match processDelta Number pair d this with
      | (Normal _, this) =>
          match getOrderBook pair None this with
          | (Normal _, this) => (Normal (), this)
          | (Throw e, this) => (Throw e, this)
          end
      | (Throw e, this) => (Throw e, this)
      end
  end.

(** A run of the handler over the messages of one instrument; it ends at
    the first exception. *)
Fixpoint run {raw : Type} (Number : raw → Z) (pair : string)
    (events : list (event raw)) (this : t) : completion () * t :=
  match events with
  | [] => (Normal (), this)
  | ev :: events =>
      match on_update Number pair ev this with
      | (Normal _, this) => run Number pair events this
      | (Throw e, this) => (Throw e, this)
      end
  end.

End BybitOrderBookManager.

(** ** The ordered container of the [bintrees] package

    [RBTree] is a dependency of the repository, not part of it.  It is
    represented by its comparator and the in-order sequence of its entries;
    every operation walks that sequence with the comparator calls and the
    argument order of the package ([insert] calls [comparator(node, data)],
    [find] and [remove] call [comparator(data, node)]). *)

Module RBTree.
Section Tree.
Context {A : Type}.

Record t : Type := Tree {
  _comparator : A → A → Z;
  nodes : list A
}.

(** [new RBTree(comparator)] *)
Definition create (comparator : A → A → Z) : t := Tree comparator [].

Definition size (tree : t) : nat := length (nodes tree).

Definition clear (tree : t) : t := Tree (_comparator tree) [].

Fixpoint insert_nodes (comparator : A → A → Z) (l : list A) (data : A) : list A :=
  match l with
  | [] => [data]
  | node :: rest =>
      let cmp := comparator node data in
      if bool_decide (cmp = 0) then l
      else if bool_decide (cmp < 0) then node :: insert_nodes comparator rest data
      else data :: l
  end.

(** An entry that compares equal to a stored one is not inserted. *)
Definition insert (tree : t) (data : A) : t :=
  Tree (_comparator tree) (insert_nodes (_comparator tree) (nodes tree) data).

Fixpoint find_nodes (comparator : A → A → Z) (l : list A) (data : A) : option A :=
  match l with
  | [] => None
  | node :: rest =>
      let c := comparator data node in
      if bool_decide (c = 0) then Some node
      else if bool_decide (c > 0) then find_nodes comparator rest data
      else None
  end.

(** The stored entry that compares equal to [data], or [null]. *)
Definition find (tree : t) (data : A) : option A :=
  find_nodes (_comparator tree) (nodes tree) data.

Fixpoint remove_nodes (comparator : A → A → Z) (l : list A) (data : A) : list A :=
  match l with
  | [] => []
  | node :: rest =>
      let cmp := comparator data node in
      if bool_decide (cmp = 0) then rest
      else if bool_decide (cmp > 0) then node :: remove_nodes comparator rest data
      else l
  end.

(** Removes the entry that compares equal to [data], if there is one. *)
Definition remove (tree : t) (data : A) : t :=
  Tree (_comparator tree) (remove_nodes (_comparator tree) (nodes tree) data).

(** [tree.iterator()] followed by [next()] until [null]: the entries in
    comparator order. *)
Definition iterator (tree : t) : list A := nodes tree.
End Tree.
Arguments t A : clear implicits.
End RBTree.

(** ** [orderbook.Btree.js] *)

Module OrderBookManager.

Record book : Type := Book {
  bids : RBTree.t level;
  asks : RBTree.t level
}.

Record counters : Type := Counters {
  snapshotCount : nat;
  deltaCount : nat;
  getOrderBookCount : nat;
  bookSize : nat
}.

Record t : Type := Manager {
  orderBooks : gmap string book;
  stats : counters
}.

Definition constructor : t :=
  Manager ∅ (Counters 0 0 0 0).

(** [(a, b) => b[0] - a[0]] *)
Definition bids_comparator (x y : level) : Z := y.1 - x.1.

(** [(a, b) => a[0] - b[0]] *)
Definition asks_comparator (x y : level) : Z := x.1 - y.1.

Definition initialize (pairs : list string) (this : t) : t :=
  Manager
    (foldl
       (λ m pair,
          <[pair := Book (RBTree.create bids_comparator)
                         (RBTree.create asks_comparator)]> m)
       (orderBooks this) pairs)
    (stats this).

(** The search keys [[price]] and [[price, undefined]]: the comparators
    read index 0 only, the second component is never inspected. *)
Definition key (price : Z) (second : option Z) : level :=
  (price, default 0 second).

(** The body of [delta.b.forEach] and of [delta.a.forEach] on one entry
    that is already converted. *)
Definition update_side (side : RBTree.t level) (pq : level) : RBTree.t level :=
  let price := pq.1 in
  let size := pq.2 in
  if bool_decide (size = 0) then
    RBTree.remove side
      (key price (snd <$> RBTree.find side (key price None)))
  else
    let existing := RBTree.find side (key price None) in
    let side :=
      match existing with
      | Some e => RBTree.remove side e
      | None => side
      end in
    RBTree.insert side (price, size).

Section Methods.
Context {raw : Type} (Number : raw → Z).

Definition processSnapshot (pair : string) (snapshot : data raw) (this : t) :
    completion () * t :=
  match orderBooks this !! pair with
  | None => (Throw "TypeError", this)
  | Some orderBook =>
      let bids := RBTree.clear (bids orderBook) in
      let asks := RBTree.clear (asks orderBook) in
      let bids :=
        foldl (λ tree pq, RBTree.insert tree (to_level Number pq))
          bids (or_empty (field_b snapshot)) in
      let asks :=
        foldl (λ tree pq, RBTree.insert tree (to_level Number pq))
          asks (or_empty (field_a snapshot)) in
      (Normal (),
       Manager (<[pair := Book bids asks]> (orderBooks this))
         (Counters (S (snapshotCount (stats this)))
                   (deltaCount (stats this))
                   (getOrderBookCount (stats this))
                   (RBTree.size bids)))
  end.

Definition processDelta (pair : string) (delta : data raw) (this : t) :
    completion () * t :=
  match orderBooks this !! pair with
  | None => (Throw "TypeError", this)
  | Some orderBook =>
      let bids :=
        if has_entries (field_b delta) then
          foldl (λ tree pq, update_side tree (to_level Number pq))
            (bids orderBook) (or_empty (field_b delta))
        else bids orderBook in
      let asks :=
        if has_entries (field_a delta) then
          foldl (λ tree pq, update_side tree (to_level Number pq))
            (asks orderBook) (or_empty (field_a delta))
        else asks orderBook in
      (Normal (),
       Manager (<[pair := Book bids asks]> (orderBooks this))
         (Counters (snapshotCount (stats this))
                   (S (deltaCount (stats this)))
                   (getOrderBookCount (stats this))
                   (RBTree.size bids)))
  end.
End Methods.

(** [{ price: bid[0], size: bid[1] }] *)
Record quote : Type := Quote {
  price : Z;
  size : Z
}.

(** [for (let i = 0; i < depth && bid; i++) { out.push(...); bid = iter.next() }],
    where [pending] holds the entries the iterator has not returned yet. *)
Fixpoint collect (pending : list level) (i depth : Z) (out : list quote) : list quote :=
  match pending with
  | [] => out
  | bid :: pending =>
      if bool_decide (i < depth)
      then collect pending (i + 1) depth (out ++ [Quote bid.1 bid.2])
      else out
  end.

(** The properties [bids] and [asks] of the object built by [getOrderBook]. *)
Record result : Type := Result {
  result_bids : list quote;
  result_asks : list quote
}.

Definition getOrderBook (pair : string) (depth : option Z) (this : t) :
    completion result * t :=
  let depth := default 200 depth in
  match orderBooks this !! pair with
  | None => (Throw "TypeError", this)
  | Some bk =>
      let bids := collect (RBTree.iterator (bids bk)) 0 depth [] in
      let asks := collect (RBTree.iterator (asks bk)) 0 depth [] in
      (Normal (Result bids asks),
       Manager (orderBooks this)
         (Counters (snapshotCount (stats this))
                   (deltaCount (stats this))
                   (S (getOrderBookCount (stats this)))
                   (bookSize (stats this))))
  end.

Definition on_update {raw : Type} (Number : raw → Z) (pair : string)
    (ev : event raw) (this : t) : completion () * t :=
  match ev with
  | Snapshot d => processSnapshot Number pair d this
  | Delta d =>
      match processDelta Number pair d this with
      | (Normal _, this) =>
          match getOrderBook pair None this with
          | (Normal _, this) => (Normal (), this)
          | (Throw e, this) => (Throw e, this)
          end
      | (Throw e, this) => (Throw e, this)
      end
  end.

Fixpoint run {raw : Type} (Number : raw → Z) (pair : string)
    (events : list (event raw)) (this : t) : completion () * t :=
  match events with
  | [] => (Normal (), this)
  | ev :: events =>
      match on_update Number pair ev this with
      | (Normal _, this) => run Number pair events this
      | (Throw e, this) => (Throw e, this)
      end
  end.

End OrderBookManager.

(** ** Vocabulary of the properties *)

(** [x] ranks strictly better than [y] on a side: lower price on the ask
    side ([ascending = true]), higher price on the bid side. *)
Definition ranks_before (ascending : bool) (x y : level) : Prop :=
  if ascending then x.1 < y.1 else y.1 < x.1.

#[global] Instance ranks_before_dec ascending x y :
  Decision (ranks_before ascending x y).
Proof. destruct ascending; simpl; apply _. Defined.

(** Best first, no two levels at one price. *)
Definition ranked (ascending : bool) (l : list level) : Prop :=
  StronglySorted (ranks_before ascending) l.

(** Best first, equal prices allowed. *)
Definition weakly_ranked (ascending : bool) (l : list level) : Prop :=
  StronglySorted (λ x y, ¬ ranks_before ascending y x) l.

(** The side invariant: strictly monotonic prices, strictly positive sizes. *)
Definition side_invariant (ascending : bool) (l : list level) : Prop :=
  ranked ascending l ∧ Forall (λ x, 0 < x.2) l.

(** The size stored at a price, if any (the first one from the best end). *)
Fixpoint size_at (p : Z) (l : list level) : option Z :=
  match l with
  | [] => None
  | x :: l => if bool_decide (x.1 = p) then Some x.2 else size_at p l
  end.

(** The effect of one update [(p, q)] on the size stored at a price. *)
Definition patched (q : Z) : option Z :=
  if bool_decide (q = 0) then None else Some q.

(** The levels of a list as a set of [(price, size)] pairs. *)
Definition level_set (l : list level) : gset level := list_to_set l.

(** The comparator of a side, as both managers compute it. *)
Definition comparator_of (ascending : bool) (x y : level) : Z :=
  if ascending then x.1 - y.1 else y.1 - x.1.

(** [[u]] when the update carries a size, nothing when it is a removal. *)
Definition kept (u : level) : list level :=
  if bool_decide (u.2 ≠ 0) then [u] else [].

(** The two-pointer merge read off the loops, by recursion on what is left
    of the two arrays. *)
Fixpoint merge_list (ascending : bool) (current updates : list level) : list level :=
  match current with
  | [] => updates ≫= kept
  | c :: cs =>
      (fix against (updates : list level) : list level :=
         match updates with
         | [] => c :: cs
         | u :: us =>
             let cmp := comparator_of ascending c u in
             if bool_decide (cmp < 0) then c :: merge_list ascending cs (u :: us)
             else if bool_decide (cmp > 0) then kept u ++ against us
             else kept u ++ merge_list ascending cs us
         end) updates
  end.

(** Section 4.2 of the specification, [applyUpdates], rule by rule: an
    update ranked strictly better than the current level is inserted when
    its size is greater than 0; at equal rank the update replaces the level
    when its size is greater than 0 and deletes it otherwise; a current
    level ranked strictly better is kept; what remains of the current
    sequence is kept. *)
Fixpoint applyUpdates (ascending : bool) (current updates : list level) : list level :=
  match current with
  | [] => filter (λ u, 0 < u.2) updates
  | c :: cs =>
      (fix against (updates : list level) : list level :=
         match updates with
         | [] => c :: cs
         | u :: us =>
             if decide (ranks_before ascending u c) then
               (if decide (0 < u.2) then u :: against us else against us)
             else if decide (u.1 = c.1) then
               (if decide (0 < u.2) then u :: applyUpdates ascending cs us
                else applyUpdates ascending cs us)
             else c :: applyUpdates ascending cs (u :: us)
         end) updates
  end.

(** A tree side as [initialize] builds it and the methods keep it: the
    comparator of the side, entries best first. *)
Definition tree_side (ascending : bool) (side : RBTree.t level) : Prop :=
  RBTree._comparator side = comparator_of ascending
  ∧ ranked ascending (RBTree.nodes side).

(** The size stored at [p] after a batch: the batch decides when it names
    the price, the previous contents decide otherwise. *)
Definition size_after (p : Z) (current updates : list level) : option Z :=
  match size_at p updates with
  | Some q => patched q
  | None => size_at p current
  end.

(** The converted levels of one property of a message. *)
Definition parsed {raw : Type} (Number : raw → Z) (x : option (list (raw * raw))) :
    list level :=
  to_level Number <$> or_empty x.

(** What one message does to the book of its instrument, array merge. *)
Definition merge_step {raw : Type} (Number : raw → Z)
    (bk : BybitOrderBookManager.book) (ev : event raw) : BybitOrderBookManager.book :=
  match ev with
  | Snapshot d =>
      BybitOrderBookManager.Book
        (parsed Number (field_b d)) (parsed Number (field_a d))
  | Delta d =>
      BybitOrderBookManager.Book
        (merge_list false (BybitOrderBookManager.bids bk) (parsed Number (field_b d)))
        (merge_list true (BybitOrderBookManager.asks bk) (parsed Number (field_a d)))
  end.

(** What one message does to the book of its instrument, tree. *)
Definition tree_step {raw : Type} (Number : raw → Z)
    (bk : OrderBookManager.book) (ev : event raw) : OrderBookManager.book :=
  match ev with
  | Snapshot d =>
      OrderBookManager.Book
        (foldl RBTree.insert (RBTree.clear (OrderBookManager.bids bk))
           (parsed Number (field_b d)))
        (foldl RBTree.insert (RBTree.clear (OrderBookManager.asks bk))
           (parsed Number (field_a d)))
  | Delta d =>
      OrderBookManager.Book
        (foldl OrderBookManager.update_side (OrderBookManager.bids bk)
           (parsed Number (field_b d)))
        (foldl OrderBookManager.update_side (OrderBookManager.asks bk)
           (parsed Number (field_a d)))
  end.

(** Both sides are trees with the comparators of [initialize]. *)
Definition tree_book (bk : OrderBookManager.book) : Prop :=
  tree_side false (OrderBookManager.bids bk)
  ∧ tree_side true (OrderBookManager.asks bk).

(** The bound of a depth query: at most [k] entries, and fewer than [k]
    only when the side holds fewer than [k] levels. *)
Definition depth_bound {A B : Type} (k : nat) (side : list A) (out : list B) : Prop :=
  (length out ≤ k)%nat ∧ ((length out < k)%nat → (length side < k)%nat).

(** [{ price: x[0], size: x[1] }] *)
Definition to_quote (x : level) : OrderBookManager.quote :=
  OrderBookManager.Quote x.1 x.2.

(** A message the feed is meant to send: a snapshot lists each side best
    first, one level per price, with positive sizes; a delta lists each
    side best first, one update per price, with sizes that are positive or
    zero. *)
Definition well_formed_side (ascending : bool) (l : list level) : Prop :=
  ranked ascending l ∧ Forall (λ x, 0 ≤ x.2) l.

Definition well_formed_event {raw : Type} (Number : raw → Z) (ev : event raw) : Prop :=
  match ev with
  | Snapshot d =>
      side_invariant false (parsed Number (field_b d))
      ∧ side_invariant true (parsed Number (field_a d))
  | Delta d =>
      well_formed_side false (parsed Number (field_b d))
      ∧ well_formed_side true (parsed Number (field_a d))
  end.

(** A message whose two lists are ranked. *)
Definition ranked_event {raw : Type} (Number : raw → Z) (ev : event raw) : Prop :=
  match ev with
  | Snapshot d | Delta d =>
      ranked false (parsed Number (field_b d))
      ∧ ranked true (parsed Number (field_a d))
  end.

(** The side invariant on both sides of a book. *)
Definition merge_book_invariant (bk : BybitOrderBookManager.book) : Prop :=
  side_invariant false (BybitOrderBookManager.bids bk)
  ∧ side_invariant true (BybitOrderBookManager.asks bk).

Definition tree_book_invariant (bk : OrderBookManager.book) : Prop :=
  side_invariant false (RBTree.iterator (OrderBookManager.bids bk))
  ∧ side_invariant true (RBTree.iterator (OrderBookManager.asks bk)).

(** The two managers hold the same levels for an instrument. *)
Definition same_levels (bkm : BybitOrderBookManager.book)
    (bkt : OrderBookManager.book) : Prop :=
  level_set (BybitOrderBookManager.bids bkm)
  = level_set (RBTree.iterator (OrderBookManager.bids bkt))
  ∧ level_set (BybitOrderBookManager.asks bkm)
    = level_set (RBTree.iterator (OrderBookManager.asks bkt)).

(** The kind of a message. *)
Definition is_snapshot {raw : Type} (ev : event raw) : bool :=
  match ev with
  | Snapshot _ => true
  | Delta _ => false
  end.

(** How many snapshot messages, and how many delta messages, a run holds. *)
Definition snapshots_in {raw : Type} (events : list (event raw)) : nat :=
  length (filter (λ ev, is_snapshot ev = true) events).

Definition deltas_in {raw : Type} (events : list (event raw)) : nat :=
  length (filter (λ ev, is_snapshot ev = false) events).

(** What the handler does to the counters on one message: a snapshot is one
    [processSnapshot]; a delta is one [processDelta] and one [getOrderBook]. *)
Definition merge_count {raw : Type} (ev : event raw)
    (st : BybitOrderBookManager.counters) : BybitOrderBookManager.counters :=
  match ev with
  | Snapshot _ =>
      BybitOrderBookManager.Counters
        (S (BybitOrderBookManager.snapshotCount st))
        (BybitOrderBookManager.deltaCount st)
        (BybitOrderBookManager.getOrderBookCount st)
  | Delta _ =>
      BybitOrderBookManager.Counters
        (BybitOrderBookManager.snapshotCount st)
        (S (BybitOrderBookManager.deltaCount st))
        (S (BybitOrderBookManager.getOrderBookCount st))
  end.

(** The same for the tree manager, where [bookSize] is set to the size of
    the bid tree of the book just written. *)
Definition tree_count {raw : Type} (ev : event raw) (written : OrderBookManager.book)
    (st : OrderBookManager.counters) : OrderBookManager.counters :=
  match ev with
  | Snapshot _ =>
      OrderBookManager.Counters
        (S (OrderBookManager.snapshotCount st))
        (OrderBookManager.deltaCount st)
        (OrderBookManager.getOrderBookCount st)
        (RBTree.size (OrderBookManager.bids written))
  | Delta _ =>
      OrderBookManager.Counters
        (OrderBookManager.snapshotCount st)
        (S (OrderBookManager.deltaCount st))
        (S (OrderBookManager.getOrderBookCount st))
        (RBTree.size (OrderBookManager.bids written))
  end.

(** [out] lists levels of [side] best first: in strict rank order, and each
    of them ranks before every level of the side that is left out. *)
Definition best_first (ascending : bool) (side out : list level) : Prop :=
  ranked ascending out
  ∧ (∀ x, x ∈ out → x ∈ side)
  ∧ (∀ x y, x ∈ out → y ∈ side → y ∉ out → ranks_before ascending x y).

(** The level an entry of a tree query stands for. *)
Definition of_quote (q : OrderBookManager.quote) : level :=
  (OrderBookManager.price q, OrderBookManager.size q).

(** Case analysis on one named test of the code. *)
Ltac decide_on P H :=
  destruct (decide P) as [H | H];
  [ rewrite ?(bool_decide_eq_true_2 P) by exact H
  | rewrite ?(bool_decide_eq_false_2 P) by exact H ].

(** ** The merge loops *)

Section MergeLoops.
Import BybitOrderBookManager.

Lemma push_update_kept merged u : push_update merged u = merged ++ kept u.
Proof.
  unfold push_update, kept. case_bool_decide; [done | by rewrite app_nil_r].
Qed.

Lemma rest_current_drop current i merged :
  rest_current current i merged = merged ++ drop i current.
Proof.
  funelim (rest_current current i merged).
  - rewrite H. rewrite <- app_assoc. simpl.
    by rewrite (drop_S _ _ _ Hc).
  - rewrite drop_ge; [by rewrite app_nil_r |].
    by apply lookup_ge_None.
Qed.

Lemma rest_updates_drop updates j merged :
  rest_updates updates j merged = merged ++ (drop j updates ≫= kept).
Proof.
  funelim (rest_updates updates j merged).
  - rewrite H. rewrite push_update_kept, <- app_assoc.
    by rewrite (drop_S _ _ _ Hu).
  - rewrite drop_ge; [by rewrite app_nil_r |].
    by apply lookup_ge_None.
Qed.

Lemma merge_list_nil_r ascending current : merge_list ascending current [] = current.
Proof. by destruct current. Qed.

Lemma merge_while_drop current updates ascending i j merged :
  let '(i', j', merged') := merge_while current updates ascending i j merged in
  rest_updates updates j' (rest_current current i' merged')
  = merged ++ merge_list ascending (drop i current) (drop j updates).
Proof.
  funelim (merge_while current updates ascending i j merged).
  - clear Heqcall.
    rewrite (drop_S _ _ _ Hc) in *. rewrite (drop_S _ _ _ Hu) in *.
    cbn [merge_list]. unfold comparator_of.
    repeat case_bool_decide.
    + destruct (merge_while _ _ _ (S i) j _) as [[i' j'] merged'].
      by rewrite H, <- app_assoc.
    + destruct (merge_while _ _ _ i (S j) _) as [[i' j'] merged'].
      by rewrite H0, push_update_kept, <- app_assoc.
    + destruct (merge_while _ _ _ (S i) (S j) _) as [[i' j'] merged'].
      by rewrite H1, push_update_kept, <- app_assoc.
  - rewrite rest_current_drop, rest_updates_drop.
    assert (drop j updates = []) as ->
      by (apply drop_ge; by apply lookup_ge_None).
    by rewrite merge_list_nil_r, app_nil_r.
  - rewrite rest_current_drop, rest_updates_drop.
    assert (drop i current = []) as ->
      by (apply drop_ge; by apply lookup_ge_None).
    by rewrite app_nil_r.
Qed.

(** The loops compute the merge of the two arrays. *)
Lemma mergeSortedUpdates_merge_list current updates ascending :
  mergeSortedUpdates current updates ascending
  = merge_list ascending current updates.
Proof.
  unfold mergeSortedUpdates.
  pose proof (merge_while_drop current updates ascending 0 0 []) as H.
  destruct (merge_while _ _ _ 0%nat 0%nat []) as [[i j] merged]. done.
Qed.
End MergeLoops.

(** ** Ranked lists and the sizes they store *)

Section Ranked.
Variable ascending : bool.

Lemma comparator_of_neg x y :
  comparator_of ascending x y < 0 ↔ ranks_before ascending x y.
Proof. unfold comparator_of, ranks_before. destruct ascending; lia. Qed.

Lemma comparator_of_pos x y :
  comparator_of ascending x y > 0 ↔ ranks_before ascending y x.
Proof. unfold comparator_of, ranks_before. destruct ascending; lia. Qed.

Lemma comparator_of_zero x y :
  comparator_of ascending x y = 0 ↔ x.1 = y.1.
Proof. unfold comparator_of. destruct ascending; lia. Qed.

Lemma ranks_before_trans x y z :
  ranks_before ascending x y → ranks_before ascending y z →
  ranks_before ascending x z.
Proof. unfold ranks_before. destruct ascending; lia. Qed.

Lemma ranks_before_ne x y : ranks_before ascending x y → x.1 ≠ y.1.
Proof. unfold ranks_before. destruct ascending; lia. Qed.

Lemma ranks_before_same_price x x' y :
  x.1 = x'.1 → ranks_before ascending x y → ranks_before ascending x' y.
Proof. unfold ranks_before. destruct ascending; lia. Qed.

Lemma ranks_before_total x y :
  ranks_before ascending x y ∨ x.1 = y.1 ∨ ranks_before ascending y x.
Proof. unfold ranks_before. destruct ascending; lia. Qed.

Lemma ranks_before_asym x y :
  ranks_before ascending x y → ¬ ranks_before ascending y x.
Proof. unfold ranks_before. destruct ascending; lia. Qed.

Lemma Forall_ranks_before_trans x y l :
  ranks_before ascending x y → Forall (ranks_before ascending y) l →
  Forall (ranks_before ascending x) l.
Proof.
  intros Hxy H. eapply Forall_impl; [exact H |].
  intros z. by apply ranks_before_trans.
Qed.

Lemma ranked_cons_inv x l :
  ranked ascending (x :: l) →
  ranked ascending l ∧ Forall (ranks_before ascending x) l.
Proof. intros H. by inversion H. Qed.

Lemma ranked_cons x l :
  ranked ascending l → Forall (ranks_before ascending x) l →
  ranked ascending (x :: l).
Proof. intros. by constructor. Qed.

Lemma ranked_weakly l : ranked ascending l → weakly_ranked ascending l.
Proof.
  induction 1 as [|x l Hl IH Hx]; constructor; [done |].
  eapply Forall_impl; [exact Hx |]. intros y. apply ranks_before_asym.
Qed.

Lemma size_at_None p l : Forall (λ y, y.1 ≠ p) l → size_at p l = None.
Proof.
  induction 1 as [|y l Hy _ IH]; [done |].
  simpl. by rewrite bool_decide_eq_false_2.
Qed.

Lemma size_at_after x l :
  Forall (ranks_before ascending x) l → size_at x.1 l = None.
Proof.
  intros H. apply size_at_None. eapply Forall_impl; [exact H |].
  intros y Hy Heq. by apply ranks_before_ne in Hy.
Qed.

Lemma size_at_elem p q l : size_at p l = Some q → (p, q) ∈ l.
Proof.
  induction l as [|[p' q'] l IH]; [done |]. simpl.
  case_bool_decide as Hp; simpl in Hp.
  - intros [= <-]. subst. left.
  - intros H. right. by apply IH.
Qed.

Lemma size_at_ranked_elem p q l :
  ranked ascending l → (p, q) ∈ l → size_at p l = Some q.
Proof.
  induction l as [|x l IH]; intros Hl Hin; [by inversion Hin |].
  apply ranked_cons_inv in Hl as [Hl Hx]. simpl.
  apply elem_of_cons in Hin as [<- | Hin].
  - by rewrite bool_decide_eq_true_2.
  - rewrite bool_decide_eq_false_2; [by apply IH |].
    rewrite Forall_forall in Hx. apply Hx in Hin.
    by apply ranks_before_ne in Hin.
Qed.

Lemma size_at_kept_app p u l :
  size_at p (kept u ++ l)
  = if bool_decide (u.1 = p ∧ u.2 ≠ 0) then Some u.2 else size_at p l.
Proof.
  unfold kept. repeat case_bool_decide; simpl; try done;
    try (rewrite bool_decide_eq_true_2 by tauto; done);
    try (rewrite bool_decide_eq_false_2 by tauto; done); tauto.
Qed.

(** Two ranked lists that store the same size at every price are equal. *)
Lemma ranked_ext l1 l2 :
  ranked ascending l1 → ranked ascending l2 →
  (∀ p, size_at p l1 = size_at p l2) → l1 = l2.
Proof.
  revert l2. induction l1 as [|x l1 IH]; intros [|y l2] H1 H2 Hext.
  - done.
  - specialize (Hext y.1). simpl in Hext.
    by rewrite bool_decide_eq_true_2 in Hext.
  - specialize (Hext x.1). simpl in Hext.
    by rewrite bool_decide_eq_true_2 in Hext.
  - apply ranked_cons_inv in H1 as [H1 Hx].
    apply ranked_cons_inv in H2 as [H2 Hy].
    assert (x = y) as ->.
    { pose proof (Hext x.1) as Ex. pose proof (Hext y.1) as Ey.
      simpl in Ex, Ey.
      rewrite (bool_decide_eq_true_2 (x.1 = x.1)) in Ex by done.
      rewrite (bool_decide_eq_true_2 (y.1 = y.1)) in Ey by done.
      destruct (decide (x.1 = y.1)) as [Heq | Hne].
      - rewrite bool_decide_eq_true_2 in Ex by done.
        destruct x, y; simpl in *; congruence.
      - rewrite bool_decide_eq_false_2 in Ex by done.
        rewrite bool_decide_eq_false_2 in Ey by done.
        symmetry in Ex. apply size_at_elem in Ex, Ey.
        rewrite Forall_forall in Hx, Hy.
        apply Hy in Ex. apply Hx in Ey. simpl in *.
        destruct x as [xp xq], y as [yp yq].
        exfalso. eapply ranks_before_asym; [exact Ex | exact Ey]. }
    f_equal. apply IH; [done | done |].
    intros p. specialize (Hext p). simpl in Hext.
    case_bool_decide as Hp; [| done].
    subst p. by rewrite !size_at_after.
Qed.

Lemma merge_list_Forall (P : level → Prop) current updates :
  Forall P current → Forall P updates →
  Forall P (merge_list ascending current updates).
Proof.
  revert updates. induction current as [|c cs IH]; intros updates Hc Hu.
  - simpl. induction Hu as [|u us Hu _ IHu]; [done |].
    simpl. unfold kept at 1. case_bool_decide; simpl; [by constructor | done].
  - inversion_clear Hc as [|? ? Hc0 Hcs].
    induction Hu as [|u us Hu Hus IHu]; [by constructor |].
    cbn [merge_list]. repeat case_bool_decide.
    + constructor; [done |]. apply IH; [done | by constructor].
    + apply Forall_app. split; [| exact IHu].
      unfold kept. case_bool_decide; by repeat constructor.
    + apply Forall_app. split; [| by apply IH].
      unfold kept. case_bool_decide; by repeat constructor.
Qed.

Lemma ranked_kept_app u l :
  ranked ascending l → Forall (ranks_before ascending u) l →
  ranked ascending (kept u ++ l).
Proof.
  intros Hl Hu. unfold kept. case_bool_decide; simpl; [by constructor | done].
Qed.

Lemma merge_list_ranked current updates :
  ranked ascending current → ranked ascending updates →
  ranked ascending (merge_list ascending current updates).
Proof.
  revert updates. induction current as [|c cs IH]; intros updates Hc Hu.
  - simpl. induction updates as [|u us IHu]; [constructor |].
    apply ranked_cons_inv in Hu as [Hus Hu]. simpl.
    apply ranked_kept_app; [by apply IHu |].
    clear IHu Hus. induction Hu as [|v us Hv _ IHu]; [done |].
    simpl. unfold kept at 1. case_bool_decide; simpl; [by constructor | done].
  - apply ranked_cons_inv in Hc as [Hcs Hc].
    induction updates as [|u us IHu]; [by constructor |].
    apply ranked_cons_inv in Hu as [Hus Hu].
    cbn [merge_list].
    case_bool_decide as Hneg; [| case_bool_decide as Hpos].
    + apply comparator_of_neg in Hneg.
      apply ranked_cons; [apply IH; [done | by constructor] |].
      apply merge_list_Forall; [done |].
      constructor; [done |]. by eapply Forall_ranks_before_trans.
    + apply comparator_of_pos in Hpos.
      apply ranked_kept_app; [by apply IHu |].
      apply (merge_list_Forall _ (c :: cs) us); [| done].
      constructor; [done |]. by eapply Forall_ranks_before_trans.
    + assert (c.1 = u.1) as Heq.
      { apply comparator_of_zero. lia. }
      apply ranked_kept_app; [by apply IH |].
      apply merge_list_Forall; [| done].
      eapply Forall_impl; [exact Hc |].
      intros z. by apply ranks_before_same_price.
Qed.
End Ranked.

(** ** What a batch of updates does to the stored sizes *)

Lemma merge_list_cons ascending c cs u us :
  merge_list ascending (c :: cs) (u :: us)
  = if bool_decide (comparator_of ascending c u < 0)
    then c :: merge_list ascending cs (u :: us)
    else if bool_decide (comparator_of ascending c u > 0)
    then kept u ++ merge_list ascending (c :: cs) us
    else kept u ++ merge_list ascending cs us.
Proof. reflexivity. Qed.

Section MergeSizes.
Variable ascending : bool.

Lemma bind_kept_size_at p updates :
  ranked ascending updates →
  size_at p (updates ≫= kept) = size_after p [] updates.
Proof.
  unfold size_after.
  induction updates as [|u us IH]; intros Hu; [done |].
  apply ranked_cons_inv in Hu as [Hus Hu].
  change ((u :: us) ≫= kept) with (kept u ++ (us ≫= kept)).
  rewrite size_at_kept_app, (IH Hus). simpl.
  case_bool_decide as Hp.
  - destruct Hp as [-> Hq]. rewrite bool_decide_eq_true_2 by done.
    unfold patched. by rewrite bool_decide_eq_false_2.
  - case_bool_decide as Hp'; [| done].
    subst p. rewrite (size_at_after _ _ _ Hu).
    unfold patched. rewrite bool_decide_eq_true_2; [done |].
    apply dec_stable. intros Hq. apply Hp. done.
Qed.

Lemma merge_list_size_at p current updates :
  ranked ascending current → ranked ascending updates →
  size_at p (merge_list ascending current updates)
  = size_after p current updates.
Proof.
  revert updates. induction current as [|c cs IH]; intros updates Hc Hu.
  - by apply bind_kept_size_at.
  - apply ranked_cons_inv in Hc as [Hcs Hc].
    induction updates as [|u us IHu]; [done |].
    apply ranked_cons_inv in Hu as [Hus Hu].
    rewrite merge_list_cons.
    case_bool_decide as Hneg; [| case_bool_decide as Hpos].
    + apply comparator_of_neg in Hneg.
      cbn [size_at]. rewrite IH by (done || by constructor).
      unfold size_after. cbn [size_at].
      case_bool_decide as Hp; [| done].
      subst p. rewrite (bool_decide_eq_false_2 (u.1 = c.1)).
      2:{ intros Heq. symmetry in Heq. by apply ranks_before_ne in Hneg. }
      rewrite (size_at_after ascending c us); [done |].
      by eapply Forall_ranks_before_trans.
    + apply comparator_of_pos in Hpos.
      rewrite size_at_kept_app, (IHu Hus).
      unfold size_after. cbn [size_at].
      case_bool_decide as Hp.
      * destruct Hp as [Hp Hq].
        rewrite (bool_decide_eq_true_2 (u.1 = p)) by done.
        unfold patched. by rewrite bool_decide_eq_false_2.
      * destruct (decide (u.1 = p)) as [Hp' | Hp'];
          [| by rewrite (bool_decide_eq_false_2 (u.1 = p))].
        rewrite (bool_decide_eq_true_2 (u.1 = p)) by done.
        subst p. rewrite (size_at_after _ _ _ Hu).
        rewrite (bool_decide_eq_false_2 (c.1 = u.1)).
        2:{ intros Heq. symmetry in Heq. by apply ranks_before_ne in Hpos. }
        rewrite (size_at_after ascending u cs).
        2:{ by eapply Forall_ranks_before_trans. }
        unfold patched. rewrite bool_decide_eq_true_2; [done |].
        apply dec_stable. intros Hq. apply Hp. done.
    + assert (c.1 = u.1) as Heq.
      { apply (comparator_of_zero ascending). lia. }
      rewrite size_at_kept_app, (IH _ Hcs Hus).
      unfold size_after. cbn [size_at]. rewrite Heq.
      case_bool_decide as Hp.
      * destruct Hp as [Hp Hq].
        rewrite (bool_decide_eq_true_2 (u.1 = p)) by done.
        unfold patched. by rewrite bool_decide_eq_false_2.
      * destruct (decide (u.1 = p)) as [Hp' | Hp'];
          [| by rewrite (bool_decide_eq_false_2 (u.1 = p))].
        rewrite (bool_decide_eq_true_2 (u.1 = p)) by done.
        subst p. rewrite (size_at_after _ _ _ Hu).
        rewrite <- Heq, (size_at_after _ _ _ Hc).
        unfold patched. rewrite bool_decide_eq_true_2; [done |].
        apply dec_stable. intros Hq. apply Hp. done.
Qed.
End MergeSizes.

(** ** The tree operations on a ranked sequence *)

Section TreeNodes.
Variable ascending : bool.
Local Abbreviation cmp := (comparator_of ascending).

Lemma not_neg_pos_zero x y :
  ¬ cmp x y < 0 → ¬ cmp x y > 0 → x.1 = y.1.
Proof. intros. apply (comparator_of_zero ascending). lia. Qed.

Lemma not_zero_pos_neg x y :
  cmp x y ≠ 0 → ¬ cmp x y > 0 → ranks_before ascending x y.
Proof. intros. apply comparator_of_neg. lia. Qed.

Lemma not_zero_neg_pos x y :
  cmp x y ≠ 0 → ¬ cmp x y < 0 → ranks_before ascending y x.
Proof. intros. apply comparator_of_pos. lia. Qed.

Lemma insert_nodes_Forall (P : level → Prop) l x :
  Forall P l → P x → Forall P (RBTree.insert_nodes cmp l x).
Proof.
  intros Hl Hx. induction Hl as [|n l Hn Hl IH]; simpl.
  - by repeat constructor.
  - repeat case_bool_decide; repeat constructor; done.
Qed.

Lemma insert_nodes_ranked l x :
  ranked ascending l → ranked ascending (RBTree.insert_nodes cmp l x).
Proof.
  induction l as [|n l IH]; intros Hl; simpl.
  - repeat constructor.
  - pose proof Hl as Hnl. apply ranked_cons_inv in Hl as [Hl Hn].
    decide_on (cmp n x = 0) Hz; [done |].
    decide_on (cmp n x < 0) Hneg.
    + apply comparator_of_neg in Hneg.
      apply ranked_cons; [by apply IH |].
      by apply insert_nodes_Forall.
    + pose proof (not_zero_neg_pos _ _ Hz Hneg) as Hxn.
      apply ranked_cons; [done |].
      constructor; [done |]. by eapply Forall_ranks_before_trans.
Qed.

Lemma insert_nodes_size_at p l x :
  ranked ascending l →
  size_at p (RBTree.insert_nodes cmp l x)
  = match size_at p l with
    | Some q => Some q
    | None => if bool_decide (x.1 = p) then Some x.2 else None
    end.
Proof.
  induction l as [|n l IH]; intros Hl; [done |].
  apply ranked_cons_inv in Hl as [Hl Hn]. simpl.
  decide_on (cmp n x = 0) Hz; [| decide_on (cmp n x < 0) Hneg].
  - apply comparator_of_zero in Hz. simpl. rewrite <- Hz.
    decide_on (n.1 = p) Hp; [done |].
    by destruct (size_at p l).
  - simpl. rewrite (IH Hl). by decide_on (n.1 = p) Hp.
  - pose proof (not_zero_neg_pos _ _ Hz Hneg) as Hxn.
    cbn [size_at].
    decide_on (x.1 = p) Hp.
    + subst p. rewrite (bool_decide_eq_false_2 (n.1 = x.1)).
      2:{ intros Heq. symmetry in Heq. by apply ranks_before_ne in Hxn. }
      rewrite (size_at_after ascending x l); [done |].
      by eapply Forall_ranks_before_trans.
    + by destruct (if bool_decide (n.1 = p) then Some n.2 else size_at p l).
Qed.

Lemma remove_nodes_Forall (P : level → Prop) l x :
  Forall P l → Forall P (RBTree.remove_nodes cmp l x).
Proof.
  induction 1 as [|n l Hn Hl IH]; simpl; [done |].
  repeat case_bool_decide; repeat constructor; done.
Qed.

Lemma remove_nodes_ranked l x :
  ranked ascending l → ranked ascending (RBTree.remove_nodes cmp l x).
Proof.
  induction l as [|n l IH]; intros Hl; simpl; [done |].
  pose proof Hl as Hnl. apply ranked_cons_inv in Hl as [Hl Hn].
  repeat case_bool_decide; try done.
  apply ranked_cons; [by apply IH | by apply remove_nodes_Forall].
Qed.

Lemma remove_nodes_size_at p l x :
  ranked ascending l →
  size_at p (RBTree.remove_nodes cmp l x)
  = if bool_decide (x.1 = p) then None else size_at p l.
Proof.
  induction l as [|n l IH]; intros Hl; simpl; [by case_bool_decide |].
  apply ranked_cons_inv in Hl as [Hl Hn].
  decide_on (cmp x n = 0) Hz; [| decide_on (cmp x n > 0) Hpos].
  - apply comparator_of_zero in Hz. rewrite Hz.
    decide_on (n.1 = p) Hp; [| done].
    subst p. by apply (size_at_after ascending).
  - apply comparator_of_pos in Hpos. simpl. rewrite (IH Hl).
    decide_on (x.1 = p) Hp; [| done].
    subst p. rewrite bool_decide_eq_false_2; [done |].
    by apply ranks_before_ne in Hpos.
  - pose proof (not_zero_pos_neg _ _ Hz Hpos) as Hxn.
    decide_on (x.1 = p) Hp; [| done].
    subst p. cbn [size_at].
    rewrite (bool_decide_eq_false_2 (n.1 = x.1)).
    2:{ intros Heq. symmetry in Heq. by apply ranks_before_ne in Hxn. }
    apply (size_at_after ascending).
    by eapply Forall_ranks_before_trans.
Qed.

Lemma find_nodes_size_at l x :
  ranked ascending l →
  RBTree.find_nodes cmp l x = (λ q, (x.1, q)) <$> size_at x.1 l.
Proof.
  induction l as [|n l IH]; intros Hl; simpl; [done |].
  apply ranked_cons_inv in Hl as [Hl Hn].
  decide_on (cmp x n = 0) Hz; [| decide_on (cmp x n > 0) Hpos].
  - apply comparator_of_zero in Hz.
    rewrite bool_decide_eq_true_2 by done. simpl.
    rewrite Hz. by destruct n.
  - apply comparator_of_pos in Hpos.
    rewrite bool_decide_eq_false_2; [by apply IH |].
    by apply ranks_before_ne in Hpos.
  - pose proof (not_zero_pos_neg _ _ Hz Hpos) as Hxn.
    rewrite bool_decide_eq_false_2.
    2:{ intros Heq. symmetry in Heq. by apply ranks_before_ne in Hxn. }
    rewrite (size_at_after ascending x l); [done |].
    by eapply Forall_ranks_before_trans.
Qed.
End TreeNodes.

(** ** One tree side under updates and snapshots *)

Section TreeSide.
Import OrderBookManager.
Variable ascending : bool.

Lemma bids_comparator_of : bids_comparator = comparator_of false.
Proof. reflexivity. Qed.

Lemma asks_comparator_of : asks_comparator = comparator_of true.
Proof. reflexivity. Qed.

Lemma tree_side_create : tree_side ascending (RBTree.create (comparator_of ascending)).
Proof. split; [done | constructor]. Qed.

Lemma tree_side_clear side :
  RBTree._comparator side = comparator_of ascending →
  tree_side ascending (RBTree.clear side).
Proof. intros H. split; [done | constructor]. Qed.

Lemma tree_side_insert side x :
  tree_side ascending side → tree_side ascending (RBTree.insert side x).
Proof.
  intros [Hc Hr]. split; [done |]. simpl. rewrite Hc.
  by apply insert_nodes_ranked.
Qed.

Lemma tree_side_remove side x :
  tree_side ascending side → tree_side ascending (RBTree.remove side x).
Proof.
  intros [Hc Hr]. split; [done |]. simpl. rewrite Hc.
  by apply remove_nodes_ranked.
Qed.

Lemma update_side_tree_side side u :
  tree_side ascending side → tree_side ascending (update_side side u).
Proof.
  intros Hs. unfold update_side. case_bool_decide.
  - by apply tree_side_remove.
  - apply tree_side_insert.
    destruct (RBTree.find side _); [by apply tree_side_remove | done].
Qed.

Lemma update_side_size_at p side u :
  tree_side ascending side →
  size_at p (RBTree.nodes (update_side side u))
  = if bool_decide (u.1 = p) then patched u.2
    else size_at p (RBTree.nodes side).
Proof.
  intros [Hc Hr]. unfold update_side, patched.
  decide_on (u.2 = 0) Hq.
  - simpl. rewrite Hc. by rewrite remove_nodes_size_at.
  - unfold RBTree.find. rewrite Hc.
    rewrite find_nodes_size_at by done. simpl.
    destruct (size_at u.1 (RBTree.nodes side)) as [q |] eqn:Hat; simpl.
    + rewrite Hc.
      rewrite insert_nodes_size_at by (by apply remove_nodes_ranked).
      rewrite remove_nodes_size_at by done. simpl.
      decide_on (u.1 = p) Hp; [done |].
      by destruct (size_at p (RBTree.nodes side)).
    + rewrite Hc. rewrite insert_nodes_size_at by done. simpl.
      decide_on (u.1 = p) Hp.
      * subst p. by rewrite Hat.
      * by destruct (size_at p (RBTree.nodes side)).
Qed.

Lemma foldl_update_side_tree_side side updates :
  tree_side ascending side →
  tree_side ascending (foldl update_side side updates).
Proof.
  revert side. induction updates as [|u us IH]; intros side Hs; [done |].
  simpl. apply IH. by apply update_side_tree_side.
Qed.

Lemma foldl_update_side_size_at p side updates :
  tree_side ascending side → ranked ascending updates →
  size_at p (RBTree.nodes (foldl update_side side updates))
  = size_after p (RBTree.nodes side) updates.
Proof.
  revert side. induction updates as [|u us IH]; intros side Hs Hu; [done |].
  apply ranked_cons_inv in Hu as [Hus Hu]. simpl.
  rewrite IH by (done || by apply update_side_tree_side).
  unfold size_after. cbn [size_at].
  rewrite update_side_size_at by done.
  decide_on (u.1 = p) Hp; [| done].
  subst p. by rewrite (size_at_after _ _ _ Hu).
Qed.

(** On a ranked batch the one-by-one tree updates and the array merge
    produce the same sequence. *)
Lemma foldl_update_side_merge_list side updates :
  tree_side ascending side → ranked ascending updates →
  RBTree.nodes (foldl update_side side updates)
  = merge_list ascending (RBTree.nodes side) updates.
Proof.
  intros Hs Hu. apply (ranked_ext ascending).
  - by apply foldl_update_side_tree_side.
  - apply merge_list_ranked; [apply Hs | done].
  - intros p. rewrite foldl_update_side_size_at by done.
    symmetry. apply merge_list_size_at; [apply Hs | done].
Qed.

Lemma foldl_insert_tree_side side (l : list level) :
  tree_side ascending side →
  tree_side ascending (foldl RBTree.insert side l).
Proof.
  revert side. induction l as [|x l IH]; intros side Hs; [done |].
  simpl. apply IH. by apply tree_side_insert.
Qed.

Lemma foldl_insert_size_at p side (l : list level) :
  tree_side ascending side →
  size_at p (RBTree.nodes (foldl RBTree.insert side l))
  = match size_at p (RBTree.nodes side) with
    | Some q => Some q
    | None => size_at p l
    end.
Proof.
  revert side. induction l as [|x l IH]; intros side Hs.
  - simpl. by destruct (size_at p (RBTree.nodes side)).
  - simpl. rewrite IH by (by apply tree_side_insert).
    destruct Hs as [Hc Hr]. simpl. rewrite Hc.
    rewrite insert_nodes_size_at by done.
    destruct (size_at p (RBTree.nodes side)); [done |].
    by case_bool_decide.
Qed.

(** A snapshot list that is already ranked is stored as it is. *)
Lemma foldl_insert_ranked side (l : list level) :
  RBTree._comparator side = comparator_of ascending →
  ranked ascending l →
  RBTree.nodes (foldl RBTree.insert (RBTree.clear side) l) = l.
Proof.
  intros Hc Hl. apply (ranked_ext ascending); [| done |].
  - apply foldl_insert_tree_side. by apply tree_side_clear.
  - intros p. rewrite foldl_insert_size_at by (by apply tree_side_clear).
    done.
Qed.
End TreeSide.

(** ** The two managers, method by method *)

Lemma has_entries_parsed {raw : Type} (Number : raw → Z) x :
  has_entries x = false → parsed Number x = [].
Proof. by destruct x as [[|? ?] |]. Qed.

Lemma foldl_insert_lookup {V : Type} (v : V) (pairs : list string)
    (m : gmap string V) (pair : string) :
  foldl (λ m pair, <[pair := v]> m) m pairs !! pair
  = if decide (pair ∈ pairs) then Some v else m !! pair.
Proof.
  revert m. induction pairs as [|p pairs IH]; intros m; simpl; [done |].
  rewrite IH. destruct (decide (pair = p)) as [-> | Hne].
  - rewrite lookup_insert_eq.
    rewrite (decide_True (P := p ∈ p :: pairs)) by left.
    by case_decide.
  - rewrite lookup_insert_ne by done.
    destruct (decide (pair ∈ pairs)) as [Hin | Hin].
    + by rewrite decide_True by (by right).
    + rewrite decide_False; [done |].
      intros [? | ?]%elem_of_cons; done.
Qed.

Section MergeFacts.
Import BybitOrderBookManager.

Section WithNumber.
Context {raw : Type} (Number : raw → Z).

Lemma merge_initialize_lookup pairs pair this :
  pair ∈ pairs →
  orderBooks (initialize pairs this) !! pair = Some (Book [] []).
Proof.
  intros Hin. unfold initialize. simpl.
  rewrite foldl_insert_lookup. by rewrite decide_True.
Qed.

Lemma merge_processSnapshot_known pair snapshot this bk :
  orderBooks this !! pair = Some bk →
  ∃ st,
    processSnapshot Number pair snapshot this
    = (Normal (),
       Manager (<[pair := merge_step Number bk (Snapshot snapshot)]> (orderBooks this)) st).
Proof. intros H. unfold processSnapshot. rewrite H. by eexists. Qed.

Lemma merge_processDelta_known pair delta this bk :
  orderBooks this !! pair = Some bk →
  ∃ st,
    processDelta Number pair delta this
    = (Normal (),
       Manager (<[pair := merge_step Number bk (Delta delta)]> (orderBooks this)) st).
Proof.
  intros H. unfold processDelta, merge_step, parsed. rewrite H.
  destruct (field_b delta) as [[|x xs] |], (field_a delta) as [[|y ys] |];
    cbn [has_entries or_empty bids asks fmap list_fmap];
    rewrite ?mergeSortedUpdates_merge_list, ?merge_list_nil_r;
    eexists; by destruct bk.
Qed.

Lemma merge_on_update_known pair ev this bk :
  orderBooks this !! pair = Some bk →
  ∃ st,
    on_update Number pair ev this
    = (Normal (), Manager (<[pair := merge_step Number bk ev]> (orderBooks this)) st).
Proof.
  intros H. destruct ev as [d | d]; simpl.
  - exact (merge_processSnapshot_known pair d this bk H).
  - destruct (merge_processDelta_known pair d this bk H) as [st ->].
    unfold getOrderBook. simpl. rewrite lookup_insert_eq. by eexists.
Qed.

Lemma merge_run_known pair events this bk :
  orderBooks this !! pair = Some bk →
  ∃ this',
    run Number pair events this = (Normal (), this')
    ∧ orderBooks this' !! pair = Some (foldl (merge_step Number) bk events).
Proof.
  revert this bk. induction events as [|ev events IH]; intros this bk H.
  - by exists this.
  - simpl. destruct (merge_on_update_known pair ev this bk H) as [st ->].
    apply IH. simpl. apply lookup_insert_eq.
Qed.
End WithNumber.
End MergeFacts.

Section TreeFacts.
Import OrderBookManager.

Section WithNumber.
Context {raw : Type} (Number : raw → Z).

Lemma tree_initialize_lookup pairs pair this :
  pair ∈ pairs →
  orderBooks (initialize pairs this) !! pair
  = Some (Book (RBTree.create bids_comparator) (RBTree.create asks_comparator)).
Proof.
  intros Hin. unfold initialize. simpl.
  rewrite foldl_insert_lookup. by rewrite decide_True.
Qed.

Lemma tree_book_create :
  tree_book (Book (RBTree.create bids_comparator) (RBTree.create asks_comparator)).
Proof. split; apply tree_side_create. Qed.

Lemma tree_processSnapshot_known pair snapshot this bk :
  orderBooks this !! pair = Some bk →
  ∃ st,
    processSnapshot Number pair snapshot this
    = (Normal (),
       Manager (<[pair := tree_step Number bk (Snapshot snapshot)]> (orderBooks this)) st).
Proof.
  intros H. unfold processSnapshot, tree_step, parsed. rewrite H.
  rewrite !foldl_fmap. by eexists.
Qed.

Lemma tree_processDelta_known pair delta this bk :
  orderBooks this !! pair = Some bk →
  ∃ st,
    processDelta Number pair delta this
    = (Normal (),
       Manager (<[pair := tree_step Number bk (Delta delta)]> (orderBooks this)) st).
Proof.
  intros H. unfold processDelta, tree_step, parsed. rewrite H.
  rewrite !foldl_fmap.
  destruct (field_b delta) as [[|x xs] |], (field_a delta) as [[|y ys] |];
    by eexists.
Qed.

Lemma tree_on_update_known pair ev this bk :
  orderBooks this !! pair = Some bk →
  ∃ st,
    on_update Number pair ev this
    = (Normal (), Manager (<[pair := tree_step Number bk ev]> (orderBooks this)) st).
Proof.
  intros H. destruct ev as [d | d]; simpl.
  - exact (tree_processSnapshot_known pair d this bk H).
  - destruct (tree_processDelta_known pair d this bk H) as [st ->].
    unfold getOrderBook. simpl. rewrite lookup_insert_eq. by eexists.
Qed.

Lemma tree_run_known pair events this bk :
  orderBooks this !! pair = Some bk →
  ∃ this',
    run Number pair events this = (Normal (), this')
    ∧ orderBooks this' !! pair = Some (foldl (tree_step Number) bk events).
Proof.
  revert this bk. induction events as [|ev events IH]; intros this bk H.
  - by exists this.
  - simpl. destruct (tree_on_update_known pair ev this bk H) as [st ->].
    apply IH. simpl. apply lookup_insert_eq.
Qed.

Lemma step_tree_book bk ev : tree_book bk → tree_book (tree_step Number bk ev).
Proof.
  intros [[Hcb Hb] [Hca Ha]]. destruct ev as [d | d]; split; simpl.
  - apply foldl_insert_tree_side. by apply tree_side_clear.
  - apply foldl_insert_tree_side. by apply tree_side_clear.
  - by apply foldl_update_side_tree_side.
  - by apply foldl_update_side_tree_side.
Qed.
End WithNumber.
End TreeFacts.

(** ** The batch update against the rules of the specification *)

Lemma kept_positive u :
  0 ≤ u.2 → kept u = if decide (0 < u.2) then [u] else [].
Proof.
  intros Hu. unfold kept. case_bool_decide; case_decide; (done || lia).
Qed.

Lemma bind_kept_filter updates :
  Forall (λ u, 0 ≤ u.2) updates →
  updates ≫= kept = filter (λ u, 0 < u.2) updates.
Proof.
  induction 1 as [|u us Hu _ IH]; [done |].
  change ((u :: us) ≫= kept) with (kept u ++ (us ≫= kept)).
  rewrite filter_cons, IH, (kept_positive _ Hu). by case_decide.
Qed.

Lemma applyUpdates_cons ascending c cs u us :
  applyUpdates ascending (c :: cs) (u :: us)
  = if decide (ranks_before ascending u c) then
      (if decide (0 < u.2) then u :: applyUpdates ascending (c :: cs) us
       else applyUpdates ascending (c :: cs) us)
    else if decide (u.1 = c.1) then
      (if decide (0 < u.2) then u :: applyUpdates ascending cs us
       else applyUpdates ascending cs us)
    else c :: applyUpdates ascending cs (u :: us).
Proof. reflexivity. Qed.

Lemma merge_list_applyUpdates ascending current updates :
  Forall (λ u, 0 ≤ u.2) updates →
  merge_list ascending current updates = applyUpdates ascending current updates.
Proof.
  revert updates. induction current as [|c cs IH]; intros updates Hu.
  - by apply bind_kept_filter.
  - induction Hu as [|u us Hu Hus IHu]; [done |].
    rewrite merge_list_cons, applyUpdates_cons, (kept_positive _ Hu).
    rewrite IHu, !IH by (done || by constructor).
    decide_on (comparator_of ascending c u < 0) Hneg;
      [| decide_on (comparator_of ascending c u > 0) Hpos].
    + apply comparator_of_neg in Hneg.
      rewrite (decide_False (P := ranks_before ascending u c))
        by (by apply ranks_before_asym).
      rewrite (decide_False (P := u.1 = c.1)); [done |].
      intros Heq. symmetry in Heq. by apply ranks_before_ne in Hneg.
    + apply comparator_of_pos in Hpos.
      rewrite (decide_True (P := ranks_before ascending u c)) by done.
      by case_decide.
    + pose proof (not_neg_pos_zero _ _ _ Hneg Hpos) as Heq.
      rewrite (decide_False (P := ranks_before ascending u c)).
      2:{ intros Hb. apply ranks_before_ne in Hb. congruence. }
      rewrite (decide_True (P := u.1 = c.1)) by done. by case_decide.
Qed.

Lemma foldl_insert_comparator {A : Type} (side : RBTree.t A) (l : list A) :
  RBTree._comparator (foldl RBTree.insert side l) = RBTree._comparator side.
Proof.
  revert side. induction l as [|x l IH]; intros side; [done |].
  simpl. by rewrite IH.
Qed.

Lemma clear_foldl_insert {A : Type} (side : RBTree.t A) (l : list A) :
  RBTree.clear (foldl RBTree.insert (RBTree.clear side) l) = RBTree.clear side.
Proof. unfold RBTree.clear. by rewrite foldl_insert_comparator. Qed.

(** ** Depth queries *)

Lemma take_min_length {A : Type} (l : list A) (k : nat) :
  take (k `min` length l) l = take k l.
Proof.
  destruct (decide (k ≤ length l)%nat).
  - by rewrite Nat.min_l.
  - rewrite Nat.min_r by lia. rewrite !take_ge; (done || lia).
Qed.

Lemma slice0_of_nat {A : Type} (l : list A) (k : nat) :
  BybitOrderBookManager.slice0 l (Z.of_nat k) = take k l.
Proof.
  unfold BybitOrderBookManager.slice0.
  rewrite bool_decide_eq_false_2 by lia.
  rewrite <- Nat2Z.inj_min, Nat2Z.id. apply take_min_length.
Qed.

Lemma depth_bound_take {A B : Type} (k : nat) (side : list A) (out : list B) :
  length out = length (take k side) → depth_bound k side out.
Proof. intros H. unfold depth_bound. rewrite H, length_take. lia. Qed.

Lemma best_first_take ascending (side : list level) (k : nat) :
  ranked ascending side → best_first ascending side (take k side).
Proof.
  intros Hs. unfold ranked in Hs.
  rewrite <- (take_drop k side) in Hs.
  apply StronglySorted_app in Hs as (Hcross & Htake & _).
  split; [exact Htake |]. split.
  - intros x Hx. rewrite <- (take_drop k side). apply elem_of_app. by left.
  - intros x y Hx Hy Hny. apply Hcross; [done |].
    rewrite <- (take_drop k side) in Hy.
    apply elem_of_app in Hy as [Hy | Hy]; [by destruct Hny | done].
Qed.

Lemma of_quote_to_quote (l : list level) : of_quote <$> (to_quote <$> l) = l.
Proof.
  rewrite <- list_fmap_compose. rewrite <- (list_fmap_id l) at 2.
  apply list_fmap_ext. by intros _ [p q] _.
Qed.

Lemma collect_take pending i depth out :
  OrderBookManager.collect pending i depth out
  = out ++ (to_quote <$> take (Z.to_nat (depth - i)) pending).
Proof.
  revert i out. induction pending as [|bid pending IH]; intros i out; simpl.
  - by rewrite take_nil, app_nil_r.
  - case_bool_decide as Hi.
    + rewrite IH, <- app_assoc.
      replace (Z.to_nat (depth - i)) with (S (Z.to_nat (depth - (i + 1)))) by lia.
      done.
    + replace (Z.to_nat (depth - i)) with 0%nat by lia.
      by rewrite app_nil_r.
Qed.

(** ** Calls for an instrument that has no book *)

Section Unknown.
Context {raw : Type} (Number : raw → Z).

Lemma merge_processSnapshot_unknown pair snapshot this :
  BybitOrderBookManager.orderBooks this !! pair = None →
  BybitOrderBookManager.processSnapshot Number pair snapshot this
  = (Throw "TypeError", this).
Proof. intros H. unfold BybitOrderBookManager.processSnapshot. by rewrite H. Qed.

Lemma merge_processDelta_unknown pair delta this :
  BybitOrderBookManager.orderBooks this !! pair = None →
  BybitOrderBookManager.processDelta Number pair delta this
  = if has_entries (field_b delta) || has_entries (field_a delta)
    then (Throw "TypeError", this)
    else (Normal (),
          BybitOrderBookManager.Manager
            (BybitOrderBookManager.orderBooks this)
            (BybitOrderBookManager.Counters
               (BybitOrderBookManager.snapshotCount (BybitOrderBookManager.stats this))
               (S (BybitOrderBookManager.deltaCount (BybitOrderBookManager.stats this)))
               (BybitOrderBookManager.getOrderBookCount
                  (BybitOrderBookManager.stats this)))).
Proof.
  intros H. unfold BybitOrderBookManager.processDelta. rewrite H.
  by destruct (has_entries (field_b delta)), (has_entries (field_a delta)).
Qed.

Lemma merge_getOrderBook_unknown pair depth this :
  BybitOrderBookManager.orderBooks this !! pair = None →
  BybitOrderBookManager.getOrderBook pair depth this = (Throw "TypeError", this).
Proof. intros H. unfold BybitOrderBookManager.getOrderBook. by rewrite H. Qed.

Lemma tree_processSnapshot_unknown pair snapshot this :
  OrderBookManager.orderBooks this !! pair = None →
  OrderBookManager.processSnapshot Number pair snapshot this
  = (Throw "TypeError", this).
Proof. intros H. unfold OrderBookManager.processSnapshot. by rewrite H. Qed.

Lemma tree_processDelta_unknown pair delta this :
  OrderBookManager.orderBooks this !! pair = None →
  OrderBookManager.processDelta Number pair delta this
  = (Throw "TypeError", this).
Proof. intros H. unfold OrderBookManager.processDelta. by rewrite H. Qed.

Lemma tree_getOrderBook_unknown pair depth this :
  OrderBookManager.orderBooks this !! pair = None →
  OrderBookManager.getOrderBook pair depth this = (Throw "TypeError", this).
Proof. intros H. unfold OrderBookManager.getOrderBook. by rewrite H. Qed.
End Unknown.

Lemma tree_step_snapshot_twice {raw : Type} (Number : raw → Z) bk d :
  tree_step Number (tree_step Number bk (Snapshot d)) (Snapshot d)
  = tree_step Number bk (Snapshot d).
Proof.
  unfold tree_step. cbn [OrderBookManager.bids OrderBookManager.asks].
  by rewrite !clear_foldl_insert.
Qed.

(** ** The claims *)

(** C3. For every current sequence and every batch of updates with
    non-negative sizes, [mergeSortedUpdates] produces exactly what the
    rules of the specification prescribe: an update ranked strictly better
    than the current level is inserted iff its size is greater than 0; an
    update at the price of a current level overwrites it when its size is
    greater than 0 and deletes it when its size is 0; a current level
    ranked strictly better than the update is kept untouched; and the
    current levels left when the batch is exhausted are kept unchanged. *)
Theorem mergeSortedUpdates_follows_rules ascending current updates :
  Forall (λ u, 0 ≤ u.2) updates →
  BybitOrderBookManager.mergeSortedUpdates current updates ascending
  = applyUpdates ascending current updates.
Proof.
  intros Hu. rewrite mergeSortedUpdates_merge_list.
  by apply merge_list_applyUpdates.
Qed.

Lemma mergeSortedUpdates_follows_rules_witness :
  Forall (λ u : level, 0 ≤ u.2) [(100, 0); (98, 7)]
  ∧ BybitOrderBookManager.mergeSortedUpdates
      [(100, 5); (99, 3)] [(100, 0); (98, 7)] false
    = applyUpdates false [(100, 5); (99, 3)] [(100, 0); (98, 7)].
Proof.
  assert (Forall (λ u : level, 0 ≤ u.2) [(100, 0); (98, 7)]) as H
    by (repeat constructor; done).
  split; [exact H |].
  exact (mergeSortedUpdates_follows_rules false _ _ H).
Defined.

(** C9, as stated, fails on the array-merge manager: the query returns the
    first stored levels, and after a snapshot whose bid list is not sorted
    these are not the best ones. *)
Lemma getOrderBook_depth_counterexample :
  let this :=
    (BybitOrderBookManager.processSnapshot decimal "ETHUSDT"
       (Data (Some [("99", "3"); ("100", "5")]) None)
       (BybitOrderBookManager.initialize ["ETHUSDT"]
          BybitOrderBookManager.constructor)).2 in
  ∃ bk res,
    BybitOrderBookManager.orderBooks this !! "ETHUSDT" = Some bk
    ∧ (BybitOrderBookManager.getOrderBook "ETHUSDT" (Some 1) this).1 = Normal res
    ∧ BybitOrderBookManager.buyOrderBook res = [(99, 3)]
    ∧ (100, 5) ∈ BybitOrderBookManager.bids bk
    ∧ ranks_before false (100, 5) (99, 3)
    ∧ ¬ best_first false (BybitOrderBookManager.bids bk)
          (BybitOrderBookManager.buyOrderBook res).
Proof.
  intros this. eexists _, _.
  split; [reflexivity |]. split; [reflexivity |]. split; [reflexivity |].
  split; [right; left |]. split; [reflexivity |].
  intros (_ & _ & H).
  assert (ranks_before false (99, 3) (100, 5)) as Hr; [| discriminate Hr].
  apply H.
  - left.
  - right. left.
  - intros Hin. apply elem_of_cons in Hin as [Hin | Hin]; [discriminate Hin |].
    by apply elem_of_nil in Hin.
Qed.

(** C9, amended. For every manager state, every instrument identifier and
    every depth [k]: when the instrument has a book, [getOrderBook] returns
    per side the first [k] stored levels, in stored order, so at most [k]
    entries and fewer than [k] only when the side holds fewer than [k]
    levels; the tree manager, whose books are built by [initialize] and its
    methods, returns them best first, and the array-merge manager returns
    them best first when the stored side is sorted by rank.  When the
    instrument has no book the query returns nothing: it throws a
    [TypeError]. *)
Theorem getOrderBook_depth (pair : string) (k : nat) :
  (∀ this,
     BybitOrderBookManager.orderBooks this !! pair = None →
     BybitOrderBookManager.getOrderBook pair (Some (Z.of_nat k)) this
     = (Throw "TypeError", this))
  ∧ (∀ this bk,
       BybitOrderBookManager.orderBooks this !! pair = Some bk →
       ∃ res this',
         BybitOrderBookManager.getOrderBook pair (Some (Z.of_nat k)) this
         = (Normal res, this')
         ∧ BybitOrderBookManager.buyOrderBook res
           = take k (BybitOrderBookManager.bids bk)
         ∧ BybitOrderBookManager.sellOrderBook res
           = take k (BybitOrderBookManager.asks bk)
         ∧ depth_bound k (BybitOrderBookManager.bids bk)
             (BybitOrderBookManager.buyOrderBook res)
         ∧ depth_bound k (BybitOrderBookManager.asks bk)
             (BybitOrderBookManager.sellOrderBook res)
         ∧ (ranked false (BybitOrderBookManager.bids bk) →
            best_first false (BybitOrderBookManager.bids bk)
              (BybitOrderBookManager.buyOrderBook res))
         ∧ (ranked true (BybitOrderBookManager.asks bk) →
            best_first true (BybitOrderBookManager.asks bk)
              (BybitOrderBookManager.sellOrderBook res)))
  ∧ (∀ this,
       OrderBookManager.orderBooks this !! pair = None →
       OrderBookManager.getOrderBook pair (Some (Z.of_nat k)) this
       = (Throw "TypeError", this))
  ∧ (∀ this bk,
       OrderBookManager.orderBooks this !! pair = Some bk →
       ∃ res this',
         OrderBookManager.getOrderBook pair (Some (Z.of_nat k)) this
         = (Normal res, this')
         ∧ OrderBookManager.result_bids res
           = to_quote <$> take k (RBTree.nodes (OrderBookManager.bids bk))
         ∧ OrderBookManager.result_asks res
           = to_quote <$> take k (RBTree.nodes (OrderBookManager.asks bk))
         ∧ depth_bound k (RBTree.nodes (OrderBookManager.bids bk))
             (OrderBookManager.result_bids res)
         ∧ depth_bound k (RBTree.nodes (OrderBookManager.asks bk))
             (OrderBookManager.result_asks res)
         ∧ ((length (OrderBookManager.result_bids res) < k)%nat →
            length (OrderBookManager.result_bids res)
            = RBTree.size (OrderBookManager.bids bk))
         ∧ ((length (OrderBookManager.result_asks res) < k)%nat →
            length (OrderBookManager.result_asks res)
            = RBTree.size (OrderBookManager.asks bk))
         ∧ (tree_book bk →
            best_first false (RBTree.nodes (OrderBookManager.bids bk))
              (of_quote <$> OrderBookManager.result_bids res)
            ∧ best_first true (RBTree.nodes (OrderBookManager.asks bk))
                (of_quote <$> OrderBookManager.result_asks res))).
Proof.
  split; [intros this H; by apply merge_getOrderBook_unknown |].
  split; [| split; [intros this H; by apply tree_getOrderBook_unknown |]].
  - intros this bk Hbk.
    unfold BybitOrderBookManager.getOrderBook. rewrite Hbk. simpl.
    rewrite !slice0_of_nat. eexists _, _.
    split; [done |].
    cbn [BybitOrderBookManager.buyOrderBook BybitOrderBookManager.sellOrderBook].
    split; [done |]. split; [done |].
    split; [by apply depth_bound_take |].
    split; [by apply depth_bound_take |].
    split; apply best_first_take.
  - intros this bk Hbk.
    unfold OrderBookManager.getOrderBook. rewrite Hbk. simpl.
    rewrite !collect_take. simpl. unfold RBTree.iterator.
    replace (Z.to_nat (Z.of_nat k - 0)) with k by lia.
    eexists _, _. split; [done |].
    cbn [OrderBookManager.result_bids OrderBookManager.result_asks].
    split; [done |]. split; [done |].
    split; [apply depth_bound_take; by rewrite length_fmap |].
    split; [apply depth_bound_take; by rewrite length_fmap |].
    unfold RBTree.size. rewrite !length_fmap, !length_take.
    split; [lia |]. split; [lia |].
    intros [[_ Hb] [_ Ha]]. rewrite !of_quote_to_quote.
    split; by apply best_first_take.
Qed.

Lemma getOrderBook_depth_witness :
  let merged :=
    (BybitOrderBookManager.run decimal "ETHUSDT"
       [Snapshot (Data (Some [("100", "5"); ("99", "3")])
                       (Some [("101", "4"); ("102", "2")]))]
       (BybitOrderBookManager.initialize ["ETHUSDT"]
          BybitOrderBookManager.constructor)).2 in
  let tree :=
    (OrderBookManager.run decimal "ETHUSDT"
       [Snapshot (Data (Some [("99", "3"); ("100", "5")])
                       (Some [("102", "2"); ("101", "4")]))]
       (OrderBookManager.initialize ["ETHUSDT"] OrderBookManager.constructor)).2 in
  (∃ res this',
     BybitOrderBookManager.getOrderBook "ETHUSDT" (Some 1) merged
     = (Normal res, this')
     ∧ BybitOrderBookManager.buyOrderBook res = [(100, 5)]
     ∧ BybitOrderBookManager.sellOrderBook res = [(101, 4)])
  ∧ (∃ res this',
       OrderBookManager.getOrderBook "ETHUSDT" (Some 1) tree = (Normal res, this')
       ∧ OrderBookManager.result_bids res = [OrderBookManager.Quote 100 5]
       ∧ OrderBookManager.result_asks res = [OrderBookManager.Quote 101 4]).
Proof.
  intros merged tree. split.
  - destruct (proj1 (proj2 (getOrderBook_depth "ETHUSDT" 1)) merged
                (BybitOrderBookManager.Book [(100, 5); (99, 3)] [(101, 4); (102, 2)])
                eq_refl)
      as (res & this' & Hcall & Hb & Ha & _).
    exists res, this'. split; [exact Hcall |]. split; [exact Hb | exact Ha].
  - destruct (proj2 (proj2 (proj2 (getOrderBook_depth "ETHUSDT" 1))) tree
                (OrderBookManager.Book
                   (RBTree.Tree OrderBookManager.bids_comparator
                      [(100, 5); (99, 3)])
                   (RBTree.Tree OrderBookManager.asks_comparator
                      [(101, 4); (102, 2)]))
                eq_refl)
      as (res & this' & Hcall & Hb & Ha & _).
    exists res, this'. split; [exact Hcall |]. split; [exact Hb | exact Ha].
Defined.

(** C8. Applying the same snapshot twice in a row ends the same way and
    leaves the same books as applying it once, in both managers. *)
Theorem processSnapshot_idempotent {raw : Type} (Number : raw → Z)
    (pair : string) (snapshot : data raw) :
  (∀ this,
     let once := BybitOrderBookManager.processSnapshot Number pair snapshot this in
     let twice := BybitOrderBookManager.processSnapshot Number pair snapshot once.2 in
     twice.1 = once.1
     ∧ BybitOrderBookManager.orderBooks twice.2
       = BybitOrderBookManager.orderBooks once.2)
  ∧ (∀ this,
       let once := OrderBookManager.processSnapshot Number pair snapshot this in
       let twice := OrderBookManager.processSnapshot Number pair snapshot once.2 in
       twice.1 = once.1
       ∧ OrderBookManager.orderBooks twice.2
         = OrderBookManager.orderBooks once.2).
Proof.
  split; intros this once twice; subst once twice.
  - destruct (BybitOrderBookManager.orderBooks this !! pair) as [bk |] eqn:Hbk.
    + destruct (merge_processSnapshot_known Number pair snapshot this bk Hbk)
        as [st ->].
      cbn [fst snd].
      edestruct (merge_processSnapshot_known Number pair snapshot) as [st' ->].
      { cbn [BybitOrderBookManager.orderBooks]. apply lookup_insert_eq. }
      cbn [fst snd BybitOrderBookManager.orderBooks].
      split; [done |]. apply insert_insert_eq.
    + rewrite (merge_processSnapshot_unknown Number _ _ _ Hbk). cbn [fst snd].
      by rewrite (merge_processSnapshot_unknown Number _ _ _ Hbk).
  - destruct (OrderBookManager.orderBooks this !! pair) as [bk |] eqn:Hbk.
    + destruct (tree_processSnapshot_known Number pair snapshot this bk Hbk)
        as [st ->].
      cbn [fst snd].
      edestruct (tree_processSnapshot_known Number pair snapshot) as [st' ->].
      { cbn [OrderBookManager.orderBooks]. apply lookup_insert_eq. }
      cbn [fst snd OrderBookManager.orderBooks].
      split; [done |].
      rewrite tree_step_snapshot_twice. apply insert_insert_eq.
    + rewrite (tree_processSnapshot_unknown Number _ _ _ Hbk). cbn [fst snd].
      by rewrite (tree_processSnapshot_unknown Number _ _ _ Hbk).
Qed.

(** C7, as stated, fails: for an instrument that was never initialized
    [processSnapshot] ends in the [TypeError] of the lookup of a property of
    [undefined], not in an [UnknownInstrument] failure, and the array-merge
    [processDelta] with no entries completes normally. *)
Lemma unknown_instrument_counterexample :
  let this :=
    BybitOrderBookManager.initialize ["ETHUSDT"] BybitOrderBookManager.constructor in
  BybitOrderBookManager.processSnapshot decimal "BTCUSDT"
    (Data (Some [("100", "5")]) (Some [("101", "4")])) this
  = (Throw "TypeError", this)
  ∧ (BybitOrderBookManager.processSnapshot decimal "BTCUSDT"
       (Data (Some [("100", "5")]) (Some [("101", "4")])) this).1
    ≠ Throw "UnknownInstrument"
  ∧ (BybitOrderBookManager.processDelta decimal "BTCUSDT" (Data (Some []) None) this).1
    = Normal ().
Proof.
  intros this. split; [reflexivity |]. split; [| reflexivity].
  intros H. discriminate H.
Qed.

(** C7, amended. A call for an instrument without a book is not reported as
    [UnknownInstrument]: [processSnapshot] and [getOrderBook] of both
    managers and the tree [processDelta] throw a [TypeError] and leave the
    manager as it was; the array-merge [processDelta] throws the same
    [TypeError] when the bid list or the ask list has entries. *)
Theorem unknown_instrument_throws_TypeError {raw : Type} (Number : raw → Z)
    (pair : string) (msg : data raw) (depth : option Z) :
  (∀ this,
     BybitOrderBookManager.orderBooks this !! pair = None →
     BybitOrderBookManager.processSnapshot Number pair msg this
     = (Throw "TypeError", this)
     ∧ BybitOrderBookManager.getOrderBook pair depth this
       = (Throw "TypeError", this)
     ∧ (has_entries (field_b msg) || has_entries (field_a msg) = true →
        BybitOrderBookManager.processDelta Number pair msg this
        = (Throw "TypeError", this)))
  ∧ (∀ this,
       OrderBookManager.orderBooks this !! pair = None →
       OrderBookManager.processSnapshot Number pair msg this
       = (Throw "TypeError", this)
       ∧ OrderBookManager.processDelta Number pair msg this
         = (Throw "TypeError", this)
       ∧ OrderBookManager.getOrderBook pair depth this
         = (Throw "TypeError", this)).
Proof.
  split; intros this H.
  - split; [by apply merge_processSnapshot_unknown |].
    split; [by apply merge_getOrderBook_unknown |].
    intros He. rewrite merge_processDelta_unknown by done. by rewrite He.
  - split; [by apply tree_processSnapshot_unknown |].
    split; [by apply tree_processDelta_unknown |].
    by apply tree_getOrderBook_unknown.
Qed.

Lemma unknown_instrument_throws_TypeError_witness :
  BybitOrderBookManager.processDelta decimal "BTCUSDT"
    (Data (Some [("50", "1")]) None)
    (BybitOrderBookManager.initialize ["ETHUSDT"] BybitOrderBookManager.constructor)
  = (Throw "TypeError",
     BybitOrderBookManager.initialize ["ETHUSDT"] BybitOrderBookManager.constructor).
Proof.
  apply (proj1 (unknown_instrument_throws_TypeError decimal "BTCUSDT"
                  (Data (Some [("50", "1")]) None) None)
           (BybitOrderBookManager.initialize ["ETHUSDT"]
              BybitOrderBookManager.constructor)
           eq_refl).
  reflexivity.
Defined.

(** C10. For an instrument with a book, [processDelta] of either manager
    completes normally and replaces the book by one whose bid side is
    computed from the old bid side and the bid list alone, and whose ask
    side is computed from the old ask side and the ask list alone; a list
    that is absent or empty leaves its side as it was. *)
Theorem processDelta_frame {raw : Type} (Number : raw → Z)
    (pair : string) (delta : data raw) :
  (∀ this bk,
     BybitOrderBookManager.orderBooks this !! pair = Some bk →
     ∃ bk' st,
       BybitOrderBookManager.processDelta Number pair delta this
       = (Normal (),
          BybitOrderBookManager.Manager
            (<[pair := bk']> (BybitOrderBookManager.orderBooks this)) st)
       ∧ BybitOrderBookManager.bids bk'
         = (if has_entries (field_b delta)
            then BybitOrderBookManager.mergeSortedUpdates
                   (BybitOrderBookManager.bids bk)
                   (parsed Number (field_b delta)) false
            else BybitOrderBookManager.bids bk)
       ∧ BybitOrderBookManager.asks bk'
         = (if has_entries (field_a delta)
            then BybitOrderBookManager.mergeSortedUpdates
                   (BybitOrderBookManager.asks bk)
                   (parsed Number (field_a delta)) true
            else BybitOrderBookManager.asks bk))
  ∧ (∀ this bk,
       OrderBookManager.orderBooks this !! pair = Some bk →
       ∃ bk' st,
         OrderBookManager.processDelta Number pair delta this
         = (Normal (),
            OrderBookManager.Manager
              (<[pair := bk']> (OrderBookManager.orderBooks this)) st)
         ∧ OrderBookManager.bids bk'
           = (if has_entries (field_b delta)
              then foldl OrderBookManager.update_side
                     (OrderBookManager.bids bk) (parsed Number (field_b delta))
              else OrderBookManager.bids bk)
         ∧ OrderBookManager.asks bk'
           = (if has_entries (field_a delta)
              then foldl OrderBookManager.update_side
                     (OrderBookManager.asks bk) (parsed Number (field_a delta))
              else OrderBookManager.asks bk)).
Proof.
  split; intros this bk Hbk.
  - destruct (merge_processDelta_known Number pair delta this bk Hbk) as [st ->].
    eexists _, st. split; [done |].
    unfold merge_step, parsed.
    cbn [BybitOrderBookManager.bids BybitOrderBookManager.asks].
    rewrite !mergeSortedUpdates_merge_list.
    destruct (field_b delta) as [[|x xs] |], (field_a delta) as [[|y ys] |];
      cbn [has_entries or_empty fmap list_fmap];
      rewrite ?merge_list_nil_r; done.
  - destruct (tree_processDelta_known Number pair delta this bk Hbk) as [st ->].
    eexists _, st. split; [done |].
    unfold tree_step, parsed.
    cbn [OrderBookManager.bids OrderBookManager.asks].
    destruct (field_b delta) as [[|x xs] |], (field_a delta) as [[|y ys] |];
      done.
Qed.

Lemma processDelta_frame_witness :
  ∃ bk' st,
    BybitOrderBookManager.processDelta decimal "ETHUSDT"
      (Data (Some [("50", "1")]) None)
      (BybitOrderBookManager.initialize ["ETHUSDT"] BybitOrderBookManager.constructor)
    = (Normal (),
       BybitOrderBookManager.Manager
         (<[ "ETHUSDT" := bk' ]>
            (BybitOrderBookManager.orderBooks
               (BybitOrderBookManager.initialize ["ETHUSDT"]
                  BybitOrderBookManager.constructor))) st)
    ∧ BybitOrderBookManager.asks bk' = [].
Proof.
  destruct (proj1 (processDelta_frame decimal "ETHUSDT"
                     (Data (Some [("50", "1")]) None))
              (BybitOrderBookManager.initialize ["ETHUSDT"]
                 BybitOrderBookManager.constructor)
              (BybitOrderBookManager.Book [] []) eq_refl)
    as (bk' & st & Hcall & _ & Ha).
  exists bk', st. split; [exact Hcall | exact Ha].
Defined.

(** C4, as stated, fails: after [initialize] and before any snapshot,
    [processDelta] completes normally and stores the update; there is no
    [NotSynchronized] failure and the book does not stay empty.  Both
    managers behave so. *)
Lemma delta_before_snapshot_counterexample :
  let merge0 :=
    BybitOrderBookManager.initialize ["ETHUSDT"] BybitOrderBookManager.constructor in
  let tree0 :=
    OrderBookManager.initialize ["ETHUSDT"] OrderBookManager.constructor in
  let delta := Data (Some [("50", "1")]) None in
  let merge1 := BybitOrderBookManager.processDelta decimal "ETHUSDT" delta merge0 in
  let tree1 := OrderBookManager.processDelta decimal "ETHUSDT" delta tree0 in
  merge1.1 = Normal ()
  ∧ merge1 ≠ (Throw "NotSynchronized", merge0)
  ∧ BybitOrderBookManager.orderBooks merge1.2 !! "ETHUSDT"
    = Some (BybitOrderBookManager.Book [(50, 1)] [])
  ∧ tree1.1 = Normal ()
  ∧ tree1 ≠ (Throw "NotSynchronized", tree0)
  ∧ (RBTree.iterator ∘ OrderBookManager.bids)
      <$> OrderBookManager.orderBooks tree1.2 !! "ETHUSDT"
    = Some [(50, 1)].
Proof.
  intros merge0 tree0 delta merge1 tree1.
  split; [reflexivity |]. split; [intros H; discriminate H |].
  split; [reflexivity |].
  split; [reflexivity |]. split; [intros H; discriminate H |].
  reflexivity.
Qed.

(** C4, amended. Calling [processDelta] for an initialized instrument before
    any snapshot completes normally: no synchronisation state is kept, and
    the delta is applied to the empty sides.  The array-merge manager stores
    the updates whose size is not zero, in batch order; the tree manager
    stores the same sequence when the batch is ranked. *)
Theorem delta_before_snapshot {raw : Type} (Number : raw → Z)
    (pairs : list string) (pair : string) (delta : data raw) :
  pair ∈ pairs →
  (∃ st,
     BybitOrderBookManager.processDelta Number pair delta
       (BybitOrderBookManager.initialize pairs BybitOrderBookManager.constructor)
     = (Normal (),
        BybitOrderBookManager.Manager
          (<[pair := BybitOrderBookManager.Book
                       (parsed Number (field_b delta) ≫= kept)
                       (parsed Number (field_a delta) ≫= kept)]>
             (BybitOrderBookManager.orderBooks
                (BybitOrderBookManager.initialize pairs
                   BybitOrderBookManager.constructor)))
          st))
  ∧ (∃ bk' st,
       OrderBookManager.processDelta Number pair delta
         (OrderBookManager.initialize pairs OrderBookManager.constructor)
       = (Normal (),
          OrderBookManager.Manager
            (<[pair := bk']>
               (OrderBookManager.orderBooks
                  (OrderBookManager.initialize pairs OrderBookManager.constructor)))
            st)
       ∧ (ranked false (parsed Number (field_b delta)) →
          RBTree.iterator (OrderBookManager.bids bk')
          = parsed Number (field_b delta) ≫= kept)
       ∧ (ranked true (parsed Number (field_a delta)) →
          RBTree.iterator (OrderBookManager.asks bk')
          = parsed Number (field_a delta) ≫= kept)).
Proof.
  intros Hin. split.
  - destruct (merge_processDelta_known Number pair delta _ _
                (merge_initialize_lookup pairs pair
                   BybitOrderBookManager.constructor Hin)) as [st ->].
    by exists st.
  - destruct (tree_processDelta_known Number pair delta _ _
                (tree_initialize_lookup pairs pair
                   OrderBookManager.constructor Hin)) as [st ->].
    eexists _, st. split; [done |].
    unfold tree_step, RBTree.iterator.
    cbn [OrderBookManager.bids OrderBookManager.asks].
    split; intros Hr.
    + rewrite (foldl_update_side_merge_list false); [done | | done].
      apply (tree_side_create false).
    + rewrite (foldl_update_side_merge_list true); [done | | done].
      apply (tree_side_create true).
Qed.

Lemma delta_before_snapshot_witness :
  "ETHUSDT" ∈ ["ETHUSDT"]
  ∧ ∃ st,
      BybitOrderBookManager.processDelta decimal "ETHUSDT"
        (Data (Some [("50", "1"); ("49", "0")]) None)
        (BybitOrderBookManager.initialize ["ETHUSDT"]
           BybitOrderBookManager.constructor)
      = (Normal (),
         BybitOrderBookManager.Manager
           (<[ "ETHUSDT" := BybitOrderBookManager.Book [(50, 1)] [] ]>
              (BybitOrderBookManager.orderBooks
                 (BybitOrderBookManager.initialize ["ETHUSDT"]
                    BybitOrderBookManager.constructor)))
           st).
Proof.
  assert ("ETHUSDT" ∈ ["ETHUSDT"]) as Hin by (apply list_elem_of_here).
  split; [exact Hin |].
  exact (proj1 (delta_before_snapshot decimal ["ETHUSDT"] "ETHUSDT"
                  (Data (Some [("50", "1"); ("49", "0")]) None) Hin)).
Defined.

(** ** Removing the level at one price *)

Lemma filter_price_size_at (p p' : Z) (l : list level) :
  size_at p' (filter (λ x, x.1 ≠ p) l)
  = if bool_decide (p = p') then None else size_at p' l.
Proof.
  induction l as [|x l IH]; [by case_bool_decide |].
  rewrite filter_cons. cbn [size_at].
  destruct (decide (x.1 = p)) as [Hx | Hx].
  - rewrite (decide_False (P := x.1 ≠ p)) by (intros H; by apply H).
    rewrite IH. decide_on (p = p') Hp; [done |].
    rewrite bool_decide_eq_false_2; [done | congruence].
  - rewrite (decide_True (P := x.1 ≠ p)) by done.
    cbn [size_at]. rewrite IH.
    decide_on (x.1 = p') Hp'; [| done].
    rewrite bool_decide_eq_false_2; [done | congruence].
Qed.

Lemma filter_ranked ascending (P : level → Prop) `{!∀ x, Decision (P x)} l :
  ranked ascending l → ranked ascending (filter P l).
Proof.
  induction l as [|x l IH]; intros Hl; [done |].
  apply ranked_cons_inv in Hl as [Hl Hx].
  rewrite filter_cons. case_decide; [| by apply IH].
  apply ranked_cons; [by apply IH |].
  rewrite Forall_forall in *. intros y [_ Hy]%list_elem_of_filter. by apply Hx.
Qed.

Lemma filter_price_absent (p : Z) (l : list level) :
  p ∉ l.*1 → filter (λ x, x.1 ≠ p) l = l.
Proof.
  induction l as [|x l IH]; intros Hp; [done |].
  rewrite fmap_cons, not_elem_of_cons in Hp. destruct Hp as [Hx Hp].
  rewrite filter_cons, decide_True by congruence. by rewrite IH.
Qed.

Lemma filter_price_present ascending (p q : Z) (l : list level) :
  ranked ascending l → (p, q) ∈ l →
  filter (λ x, x.1 ≠ p) l = filter (λ x, x ≠ (p, q)) l
  ∧ length l = S (length (filter (λ x, x.1 ≠ p) l)).
Proof.
  induction l as [|x l IH]; intros Hl Hin; [by apply elem_of_nil in Hin |].
  apply ranked_cons_inv in Hl as [Hl Hx].
  rewrite !filter_cons.
  apply elem_of_cons in Hin as [<- | Hin].
  - cbn [fst]. rewrite decide_False by (intros H; by apply H).
    rewrite decide_False by (intros H; by apply H).
    assert (Forall (λ y : level, y.1 ≠ p) l) as Hne.
    { eapply Forall_impl; [exact Hx |]. intros y Hy Heq.
      apply ranks_before_ne in Hy. simpl in Hy. congruence. }
    assert (p ∉ l.*1) as Hp.
    { intros (y & Hy1 & Hy2)%list_elem_of_fmap.
      rewrite Forall_forall in Hne. by apply (Hne y). }
    rewrite (filter_price_absent p l Hp).
    split; [| done].
    symmetry.
    clear -Hne. induction Hne as [|y l Hy _ IH]; [done |].
    rewrite filter_cons, decide_True; [by rewrite IH at 1 |].
    intros ->. by apply Hy.
  - assert (x.1 ≠ p) as Hxp.
    { rewrite Forall_forall in Hx. apply Hx in Hin.
      by apply ranks_before_ne in Hin. }
    rewrite decide_True by done.
    rewrite decide_True by (intros ->; by apply Hxp).
    destruct (IH Hl Hin) as [-> Hlen]. split; [done |].
    simpl. by rewrite Hlen.
Qed.

Lemma merge_list_remove ascending side p :
  ranked ascending side →
  merge_list ascending side [(p, 0)] = filter (λ x, x.1 ≠ p) side.
Proof.
  intros Hs. apply (ranked_ext ascending).
  - apply merge_list_ranked; [done |]. by repeat constructor.
  - by apply filter_ranked.
  - intros p'. rewrite merge_list_size_at by (done || by repeat constructor).
    rewrite filter_price_size_at. unfold size_after. cbn [size_at fst snd].
    by case_bool_decide.
Qed.

Lemma update_side_remove ascending side p :
  tree_side ascending side →
  RBTree.nodes (OrderBookManager.update_side side (p, 0))
  = filter (λ x, x.1 ≠ p) (RBTree.nodes side).
Proof.
  intros Hs. apply (ranked_ext ascending).
  - by apply update_side_tree_side.
  - apply filter_ranked. apply Hs.
  - intros p'. rewrite (update_side_size_at ascending) by done.
    rewrite filter_price_size_at. cbn [fst snd].
    by case_bool_decide.
Qed.

(** C6, as stated, fails on the array-merge manager for a side that is not
    sorted: after the snapshot asks [[5,1],[3,1]] the delta asks [[3,0]]
    names a price that is present, and the level at that price stays. *)
Lemma size_zero_update_counterexample :
  let after_snapshot :=
    (BybitOrderBookManager.processSnapshot decimal "ETHUSDT"
       (Data None (Some [("5", "1"); ("3", "1")]))
       (BybitOrderBookManager.initialize ["ETHUSDT"]
          BybitOrderBookManager.constructor)).2 in
  let after_delta :=
    (BybitOrderBookManager.processDelta decimal "ETHUSDT"
       (Data None (Some [("3", "0")])) after_snapshot).2 in
  BybitOrderBookManager.asks
    <$> BybitOrderBookManager.orderBooks after_snapshot !! "ETHUSDT"
  = Some [(5, 1); (3, 1)]
  ∧ BybitOrderBookManager.asks
      <$> BybitOrderBookManager.orderBooks after_delta !! "ETHUSDT"
    = Some [(5, 1); (3, 1)]
  ∧ BybitOrderBookManager.mergeSortedUpdates [(5, 1); (3, 1)] [(3, 0)] true
    = [(5, 1); (3, 1)]
  ∧ (3, 1) ∈ BybitOrderBookManager.mergeSortedUpdates
               [(5, 1); (3, 1)] [(3, 0)] true.
Proof.
  intros after_snapshot after_delta.
  split; [reflexivity |]. split; [reflexivity |]. split; [reflexivity |].
  change ((3, 1) ∈ [(5, 1); (3, 1)]). right. left.
Qed.

(** C6, amended. On a side that is sorted strictly by rank, an update with
    size 0 at a price that is not present leaves the side unchanged, and at
    a price that is present it removes the entry at that price and no
    other.  This holds for the array-merge batch update on every ranked
    side, and for the tree update on every tree side, which [initialize]
    and the methods of the tree manager always keep ranked. *)
Theorem size_zero_update (ascending : bool) (p : Z) :
  (∀ side,
     ranked ascending side →
     let merged := BybitOrderBookManager.mergeSortedUpdates side [(p, 0)] ascending in
     (p ∉ side.*1 → merged = side)
     ∧ (∀ q, (p, q) ∈ side →
          merged = filter (λ x, x ≠ (p, q)) side
          ∧ length side = S (length merged)))
  ∧ (∀ side,
       tree_side ascending side →
       let updated := OrderBookManager.update_side side (p, 0) in
       (p ∉ (RBTree.iterator side).*1 → updated = side)
       ∧ (∀ q, (p, q) ∈ RBTree.iterator side →
            RBTree.iterator updated
            = filter (λ x, x ≠ (p, q)) (RBTree.iterator side)
            ∧ length (RBTree.iterator side)
              = S (length (RBTree.iterator updated)))).
Proof.
  split.
  - intros side Hs merged. subst merged.
    rewrite mergeSortedUpdates_merge_list, merge_list_remove by done.
    split.
    + apply filter_price_absent.
    + intros q Hq.
      destruct (filter_price_present ascending p q side Hs Hq) as [<- Hlen].
      done.
  - intros side Hs updated. subst updated. unfold RBTree.iterator.
    pose proof (update_side_remove ascending side p Hs) as Hn.
    split.
    + intros Hp. rewrite (filter_price_absent _ _ Hp) in Hn.
      pose proof (update_side_tree_side ascending side (p, 0) Hs) as [Hc _].
      destruct Hs as [Hc' _].
      destruct (OrderBookManager.update_side side (p, 0)) as [c n].
      destruct side as [c' n']. simpl in *. congruence.
    + intros q Hq. rewrite Hn.
      destruct (filter_price_present ascending p q _ (proj2 Hs) Hq) as [<- Hlen].
      done.
Qed.

Lemma size_zero_update_witness :
  ranked false [(100, 5); (99, 3)]
  ∧ BybitOrderBookManager.mergeSortedUpdates [(100, 5); (99, 3)] [(100, 0)] false
    = filter (λ x, x ≠ (100, 5)) [(100, 5); (99, 3)]
  ∧ BybitOrderBookManager.mergeSortedUpdates [(100, 5); (99, 3)] [(98, 0)] false
    = [(100, 5); (99, 3)].
Proof.
  assert (ranked false [(100, 5); (99, 3)]) as Hr.
  { repeat constructor. }
  split; [exact Hr |]. split.
  - apply (proj1 (size_zero_update false 100) _ Hr). apply list_elem_of_here.
  - apply (proj1 (size_zero_update false 98) _ Hr).
    intros H. cbn in H.
    apply elem_of_cons in H as [H | H]; [discriminate H |].
    apply elem_of_cons in H as [H | H]; [discriminate H |].
    by apply elem_of_nil in H.
Defined.

(** C5, as stated, fails: the array-merge [processSnapshot] stores the
    levels in the order of the message, so an unsorted ask list leaves an
    ask side that is not sorted by rank. *)
Lemma snapshot_order_counterexample :
  let after :=
    BybitOrderBookManager.processSnapshot decimal "ETHUSDT"
      (Data None (Some [("5", "1"); ("3", "1")]))
      (BybitOrderBookManager.initialize ["ETHUSDT"]
         BybitOrderBookManager.constructor) in
  ∃ bk,
    BybitOrderBookManager.orderBooks after.2 !! "ETHUSDT" = Some bk
    ∧ BybitOrderBookManager.asks bk = [(5, 1); (3, 1)]
    ∧ ¬ weakly_ranked true (BybitOrderBookManager.asks bk).
Proof.
  intros after. eexists. split; [reflexivity |]. split; [reflexivity |].
  cbn [BybitOrderBookManager.asks]. intros H.
  inversion H as [|? ? _ Hall]; subst.
  inversion Hall as [|? ? Hhead _]; subst.
  apply Hhead. reflexivity.
Qed.

(** C5, amended. For an instrument with a book, [processSnapshot] converts
    each raw pair and replaces both sides wholesale, whatever they held (an
    absent list gives an empty side).  The array-merge manager stores the
    converted levels in the order of the message.  The tree manager stores
    them ranked, keeping for each price the first level given; when the
    converted list is itself ranked the side equals it. *)
Theorem processSnapshot_replaces {raw : Type} (Number : raw → Z)
    (pair : string) (snapshot : data raw) :
  (∀ this bk,
     BybitOrderBookManager.orderBooks this !! pair = Some bk →
     ∃ st,
       BybitOrderBookManager.processSnapshot Number pair snapshot this
       = (Normal (),
          BybitOrderBookManager.Manager
            (<[pair := BybitOrderBookManager.Book
                         (parsed Number (field_b snapshot))
                         (parsed Number (field_a snapshot))]>
               (BybitOrderBookManager.orderBooks this))
            st))
  ∧ (∀ this bk,
       OrderBookManager.orderBooks this !! pair = Some bk →
       tree_book bk →
       ∃ bk' st,
         OrderBookManager.processSnapshot Number pair snapshot this
         = (Normal (),
            OrderBookManager.Manager
              (<[pair := bk']> (OrderBookManager.orderBooks this)) st)
         ∧ ranked false (RBTree.iterator (OrderBookManager.bids bk'))
         ∧ ranked true (RBTree.iterator (OrderBookManager.asks bk'))
         ∧ (∀ p, size_at p (RBTree.iterator (OrderBookManager.bids bk'))
                 = size_at p (parsed Number (field_b snapshot)))
         ∧ (∀ p, size_at p (RBTree.iterator (OrderBookManager.asks bk'))
                 = size_at p (parsed Number (field_a snapshot)))
         ∧ (ranked false (parsed Number (field_b snapshot)) →
            RBTree.iterator (OrderBookManager.bids bk')
            = parsed Number (field_b snapshot))
         ∧ (ranked true (parsed Number (field_a snapshot)) →
            RBTree.iterator (OrderBookManager.asks bk')
            = parsed Number (field_a snapshot))).
Proof.
  split.
  - intros this bk Hbk.
    exact (merge_processSnapshot_known Number pair snapshot this bk Hbk).
  - intros this bk Hbk [[Hcb Hb] [Hca Ha]].
    destruct (tree_processSnapshot_known Number pair snapshot this bk Hbk)
      as [st ->].
    eexists _, st. split; [done |].
    unfold tree_step, RBTree.iterator.
    cbn [OrderBookManager.bids OrderBookManager.asks].
    pose proof (tree_side_clear false _ Hcb) as Hclb.
    pose proof (tree_side_clear true _ Hca) as Hcla.
    split; [apply (foldl_insert_tree_side false); exact Hclb |].
    split; [apply (foldl_insert_tree_side true); exact Hcla |].
    split; [intros p; by rewrite (foldl_insert_size_at false) |].
    split; [intros p; by rewrite (foldl_insert_size_at true) |].
    split; intros Hr.
    + by apply (foldl_insert_ranked false).
    + by apply (foldl_insert_ranked true).
Qed.

Lemma processSnapshot_replaces_witness :
  let this :=
    BybitOrderBookManager.initialize ["ETHUSDT"] BybitOrderBookManager.constructor in
  ∃ st,
    BybitOrderBookManager.processSnapshot decimal "ETHUSDT"
      (Data (Some [("100", "5"); ("99", "3")]) None) this
    = (Normal (),
       BybitOrderBookManager.Manager
         (<[ "ETHUSDT" := BybitOrderBookManager.Book [(100, 5); (99, 3)] [] ]>
            (BybitOrderBookManager.orderBooks this))
         st).
Proof.
  intros this.
  exact (proj1 (processSnapshot_replaces decimal "ETHUSDT"
                  (Data (Some [("100", "5"); ("99", "3")]) None))
           this (BybitOrderBookManager.Book [] []) eq_refl).
Defined.

(** ** Runs of well-formed messages *)

Lemma merge_list_Forall_kept ascending (P : level → Prop) current updates :
  Forall P current → Forall (λ u, u.2 ≠ 0 → P u) updates →
  Forall P (merge_list ascending current updates).
Proof.
  assert (∀ u, (u.2 ≠ 0 → P u) → Forall P (kept u)) as Hkept.
  { intros u Hu. unfold kept. case_bool_decide; [| done].
    repeat constructor. by apply Hu. }
  revert updates. induction current as [|c cs IH]; intros updates Hc Hu.
  - simpl. induction Hu as [|u us Hu _ IHu]; [done |].
    change ((u :: us) ≫= kept) with (kept u ++ (us ≫= kept)).
    apply Forall_app. split; [by apply Hkept | done].
  - inversion_clear Hc as [|? ? Hc0 Hcs].
    induction Hu as [|u us Hu Hus IHu]; [by constructor |].
    rewrite merge_list_cons. repeat case_bool_decide.
    + constructor; [done |]. apply IH; [done | by constructor].
    + apply Forall_app. split; [by apply Hkept | exact IHu].
    + apply Forall_app. split; [by apply Hkept | by apply IH].
Qed.

Lemma merge_list_side_invariant ascending current updates :
  side_invariant ascending current → well_formed_side ascending updates →
  side_invariant ascending (merge_list ascending current updates).
Proof.
  intros [Hc Hcq] [Hu Huq]. split; [by apply merge_list_ranked |].
  apply merge_list_Forall_kept; [done |].
  eapply Forall_impl; [exact Huq |]. intros u Hq Hne. simpl in *. lia.
Qed.

Section Runs.
Context {raw : Type} (Number : raw → Z).

Lemma merge_step_invariant bk ev :
  merge_book_invariant bk → well_formed_event Number ev →
  merge_book_invariant (merge_step Number bk ev).
Proof.
  intros [Hb Ha] Hev. destruct ev as [d | d]; destruct Hev as [Hdb Hda].
  - done.
  - split; by apply merge_list_side_invariant.
Qed.

Lemma tree_step_invariant bk ev :
  tree_book bk → tree_book_invariant bk → well_formed_event Number ev →
  tree_book_invariant (tree_step Number bk ev).
Proof.
  intros [Htb Hta] [Hb Ha] Hev. unfold tree_book_invariant, RBTree.iterator in *.
  destruct ev as [d | d]; destruct Hev as [Hdb Hda];
    cbn [tree_step OrderBookManager.bids OrderBookManager.asks].
  - rewrite (foldl_insert_ranked false) by (apply Htb || apply Hdb).
    rewrite (foldl_insert_ranked true) by (apply Hta || apply Hda).
    done.
  - rewrite (foldl_update_side_merge_list false) by (done || apply Hdb).
    rewrite (foldl_update_side_merge_list true) by (done || apply Hda).
    split; by apply merge_list_side_invariant.
Qed.

Lemma merge_run_invariant events bk :
  merge_book_invariant bk → Forall (well_formed_event Number) events →
  merge_book_invariant (foldl (merge_step Number) bk events).
Proof.
  revert bk. induction events as [|ev events IH]; intros bk Hbk Hev; [done |].
  inversion_clear Hev. simpl. apply IH; [| done].
  by apply merge_step_invariant.
Qed.

Lemma tree_run_invariant events bk :
  tree_book bk → tree_book_invariant bk →
  Forall (well_formed_event Number) events →
  tree_book_invariant (foldl (tree_step Number) bk events).
Proof.
  revert bk. induction events as [|ev events IH]; intros bk Ht Hbk Hev; [done |].
  inversion_clear Hev. simpl. apply IH; [| | done].
  - by apply step_tree_book.
  - by apply tree_step_invariant.
Qed.

(** On ranked messages the two managers keep the same sequences. *)
Lemma steps_agree bkm bkt ev :
  tree_book bkt →
  BybitOrderBookManager.bids bkm = RBTree.nodes (OrderBookManager.bids bkt) →
  BybitOrderBookManager.asks bkm = RBTree.nodes (OrderBookManager.asks bkt) →
  ranked_event Number ev →
  BybitOrderBookManager.bids (merge_step Number bkm ev)
  = RBTree.nodes (OrderBookManager.bids (tree_step Number bkt ev))
  ∧ BybitOrderBookManager.asks (merge_step Number bkm ev)
    = RBTree.nodes (OrderBookManager.asks (tree_step Number bkt ev)).
Proof.
  intros [Htb Hta] Eb Ea Hev.
  destruct ev as [d | d]; destruct Hev as [Hdb Hda];
    cbn [merge_step tree_step BybitOrderBookManager.bids BybitOrderBookManager.asks
         OrderBookManager.bids OrderBookManager.asks].
  - rewrite (foldl_insert_ranked false) by (apply Htb || done).
    rewrite (foldl_insert_ranked true) by (apply Hta || done).
    done.
  - rewrite (foldl_update_side_merge_list false) by done.
    rewrite (foldl_update_side_merge_list true) by done.
    by rewrite Eb, Ea.
Qed.

Lemma runs_agree events bkm bkt :
  tree_book bkt →
  BybitOrderBookManager.bids bkm = RBTree.nodes (OrderBookManager.bids bkt) →
  BybitOrderBookManager.asks bkm = RBTree.nodes (OrderBookManager.asks bkt) →
  Forall (ranked_event Number) events →
  BybitOrderBookManager.bids (foldl (merge_step Number) bkm events)
  = RBTree.nodes (OrderBookManager.bids (foldl (tree_step Number) bkt events))
  ∧ BybitOrderBookManager.asks (foldl (merge_step Number) bkm events)
    = RBTree.nodes (OrderBookManager.asks (foldl (tree_step Number) bkt events)).
Proof.
  revert bkm bkt. induction events as [|ev events IH];
    intros bkm bkt Ht Eb Ea Hev; [done |].
  inversion_clear Hev as [|? ? Hev0 Hevs]. simpl.
  destruct (steps_agree bkm bkt ev Ht Eb Ea Hev0) as [Eb' Ea'].
  apply IH; [by apply step_tree_book | done | done | done].
Qed.
End Runs.

(** C1, as stated, fails: a snapshot level of size 0 is stored as it is, by
    both managers, so a side can hold a level whose size is exactly 0. *)
Lemma snapshot_zero_size_counterexample :
  let snapshot := Snapshot (Data (Some [("100", "0")]) (Some [("101", "4")])) in
  let merged :=
    BybitOrderBookManager.run decimal "ETHUSDT" [snapshot]
      (BybitOrderBookManager.initialize ["ETHUSDT"]
         BybitOrderBookManager.constructor) in
  let tree :=
    OrderBookManager.run decimal "ETHUSDT" [snapshot]
      (OrderBookManager.initialize ["ETHUSDT"] OrderBookManager.constructor) in
  (∃ bk,
     BybitOrderBookManager.orderBooks merged.2 !! "ETHUSDT" = Some bk
     ∧ BybitOrderBookManager.bids bk = [(100, 0)]
     ∧ ¬ merge_book_invariant bk)
  ∧ (∃ bk,
       OrderBookManager.orderBooks tree.2 !! "ETHUSDT" = Some bk
       ∧ RBTree.iterator (OrderBookManager.bids bk) = [(100, 0)]
       ∧ ¬ tree_book_invariant bk).
Proof.
  intros snapshot merged tree. split.
  - eexists. split; [reflexivity |]. split; [reflexivity |].
    intros [[_ Hq] _]. cbn [BybitOrderBookManager.bids] in Hq.
    inversion Hq as [|? ? H0 _]; subst. discriminate H0.
  - eexists. split; [reflexivity |]. split; [reflexivity |].
    intros [[_ Hq] _].
    change (Forall (λ x : level, 0 < x.2) [(100, 0)]) in Hq.
    inversion Hq as [|? ? H0 _]; subst. discriminate H0.
Qed.

(** C1, amended. For every sequence of well-formed snapshot and delta
    messages applied to an initialized instrument (snapshot lists ranked
    with positive sizes, delta lists ranked with sizes positive or zero),
    after each operation both sides of the book of either manager, iterated
    from best to worst, have strictly monotonic prices in rank order and
    strictly positive sizes. *)
Theorem side_invariant_after_each_operation {raw : Type} (Number : raw → Z)
    (pairs : list string) (pair : string) (events : list (event raw)) (n : nat) :
  pair ∈ pairs →
  Forall (well_formed_event Number) events →
  (∃ this bk,
     BybitOrderBookManager.run Number pair (take n events)
       (BybitOrderBookManager.initialize pairs BybitOrderBookManager.constructor)
     = (Normal (), this)
     ∧ BybitOrderBookManager.orderBooks this !! pair = Some bk
     ∧ merge_book_invariant bk)
  ∧ (∃ this bk,
       OrderBookManager.run Number pair (take n events)
         (OrderBookManager.initialize pairs OrderBookManager.constructor)
       = (Normal (), this)
       ∧ OrderBookManager.orderBooks this !! pair = Some bk
       ∧ tree_book_invariant bk).
Proof.
  intros Hin Hev.
  assert (Forall (well_formed_event Number) (take n events)) as Hev'.
  { by apply Forall_take. }
  split.
  - destruct (merge_run_known Number pair (take n events) _ _
                (merge_initialize_lookup pairs pair
                   BybitOrderBookManager.constructor Hin))
      as (this & Hrun & Hbk).
    eexists this, _. split; [done |]. split; [done |].
    apply merge_run_invariant; [| done].
    repeat constructor.
  - destruct (tree_run_known Number pair (take n events) _ _
                (tree_initialize_lookup pairs pair
                   OrderBookManager.constructor Hin))
      as (this & Hrun & Hbk).
    eexists this, _. split; [done |]. split; [done |].
    apply tree_run_invariant; [apply tree_book_create | | done].
    repeat constructor.
Qed.

Lemma side_invariant_after_each_operation_witness :
  "ETHUSDT" ∈ ["ETHUSDT"]
  ∧ Forall (well_formed_event decimal)
      [Snapshot (Data (Some [("100", "5"); ("99", "3")])
                      (Some [("101", "4"); ("102", "2")]));
       Delta (Data (Some [("100", "0"); ("98", "7")]) None)]
  ∧ ∃ this bk,
      BybitOrderBookManager.run decimal "ETHUSDT"
        (take 2
           [Snapshot (Data (Some [("100", "5"); ("99", "3")])
                           (Some [("101", "4"); ("102", "2")]));
            Delta (Data (Some [("100", "0"); ("98", "7")]) None)])
        (BybitOrderBookManager.initialize ["ETHUSDT"]
           BybitOrderBookManager.constructor)
      = (Normal (), this)
      ∧ BybitOrderBookManager.orderBooks this !! "ETHUSDT" = Some bk
      ∧ merge_book_invariant bk.
Proof.
  assert ("ETHUSDT" ∈ ["ETHUSDT"]) as Hin by (apply list_elem_of_here).
  assert (Forall (well_formed_event decimal)
            [Snapshot (Data (Some [("100", "5"); ("99", "3")])
                            (Some [("101", "4"); ("102", "2")]));
             Delta (Data (Some [("100", "0"); ("98", "7")]) None)]) as Hev.
  { repeat constructor; discriminate. }
  split; [exact Hin |]. split; [exact Hev |].
  exact (proj1 (side_invariant_after_each_operation decimal ["ETHUSDT"] "ETHUSDT"
                  _ 2 Hin Hev)).
Defined.

(** C2, as stated, fails for a snapshot that is not sorted: after the
    snapshot asks [[5,1],[3,1]] and the delta asks [[3,0]] the array-merge
    manager still holds the level at 3 and the tree manager does not. *)
Lemma strategies_disagree_counterexample :
  let events :=
    [Snapshot (Data None (Some [("5", "1"); ("3", "1")]));
     Delta (Data None (Some [("3", "0")]))] in
  let merged :=
    BybitOrderBookManager.run decimal "ETHUSDT" events
      (BybitOrderBookManager.initialize ["ETHUSDT"]
         BybitOrderBookManager.constructor) in
  let tree :=
    OrderBookManager.run decimal "ETHUSDT" events
      (OrderBookManager.initialize ["ETHUSDT"] OrderBookManager.constructor) in
  ∃ bkm bkt,
    BybitOrderBookManager.orderBooks merged.2 !! "ETHUSDT" = Some bkm
    ∧ OrderBookManager.orderBooks tree.2 !! "ETHUSDT" = Some bkt
    ∧ BybitOrderBookManager.asks bkm = [(5, 1); (3, 1)]
    ∧ RBTree.iterator (OrderBookManager.asks bkt) = [(5, 1)]
    ∧ ¬ same_levels bkm bkt.
Proof.
  intros events merged tree. eexists _, _.
  split; [reflexivity |]. split; [reflexivity |].
  split; [reflexivity |]. split; [reflexivity |].
  intros [_ Ha].
  change (level_set [(5, 1); (3, 1)] = level_set [(5, 1)]) in Ha.
  assert ((3, 1) ∈ level_set [(5, 1)]) as Hin.
  { rewrite <- Ha. apply elem_of_list_to_set. right. left. }
  apply elem_of_list_to_set in Hin.
  apply elem_of_cons in Hin as [Hin | Hin]; [discriminate Hin |].
  by apply elem_of_nil in Hin.
Qed.

(** C2, amended. For an initial snapshot whose sides are ranked (best
    first, one level per price) and any sequence of delta batches that are
    ranked, applying the snapshot and then the deltas through the
    array-merge manager and through the tree manager yields identical sets
    of (price, size) pairs on the bid side and on the ask side. *)
Theorem strategies_agree {raw : Type} (Number : raw → Z)
    (pairs : list string) (pair : string)
    (snapshot : data raw) (deltas : list (data raw)) :
  pair ∈ pairs →
  ranked_event Number (Snapshot snapshot) →
  Forall (λ d, ranked_event Number (Delta d)) deltas →
  ∃ thism bkm thist bkt,
    BybitOrderBookManager.run Number pair (Snapshot snapshot :: (Delta <$> deltas))
      (BybitOrderBookManager.initialize pairs BybitOrderBookManager.constructor)
    = (Normal (), thism)
    ∧ BybitOrderBookManager.orderBooks thism !! pair = Some bkm
    ∧ OrderBookManager.run Number pair (Snapshot snapshot :: (Delta <$> deltas))
        (OrderBookManager.initialize pairs OrderBookManager.constructor)
      = (Normal (), thist)
    ∧ OrderBookManager.orderBooks thist !! pair = Some bkt
    ∧ same_levels bkm bkt.
Proof.
  intros Hin Hs Hd.
  set (events := Snapshot snapshot :: (Delta <$> deltas)).
  assert (Forall (ranked_event Number) events) as Hev.
  { constructor; [done |]. by apply Forall_fmap. }
  destruct (merge_run_known Number pair events _ _
              (merge_initialize_lookup pairs pair
                 BybitOrderBookManager.constructor Hin))
    as (thism & Hrunm & Hbkm).
  destruct (tree_run_known Number pair events _ _
              (tree_initialize_lookup pairs pair
                 OrderBookManager.constructor Hin))
    as (thist & Hrunt & Hbkt).
  eexists thism, _, thist, _.
  split; [done |]. split; [done |]. split; [done |]. split; [done |].
  destruct (runs_agree Number events
              (BybitOrderBookManager.Book [] [])
              (OrderBookManager.Book
                 (RBTree.create OrderBookManager.bids_comparator)
                 (RBTree.create OrderBookManager.asks_comparator))
              tree_book_create eq_refl eq_refl Hev) as [Eb Ea].
  unfold same_levels, RBTree.iterator. by rewrite Eb, Ea.
Qed.

Lemma strategies_agree_witness :
  "ETHUSDT" ∈ ["ETHUSDT"]
  ∧ ranked_event decimal
      (Snapshot (Data (Some [("100", "5"); ("99", "3")])
                      (Some [("101", "4"); ("102", "2")])))
  ∧ Forall (λ d, ranked_event decimal (Delta d))
      [Data (Some [("100", "0"); ("98", "7")]) None]
  ∧ ∃ thism bkm thist bkt,
      BybitOrderBookManager.run decimal "ETHUSDT"
        (Snapshot (Data (Some [("100", "5"); ("99", "3")])
                        (Some [("101", "4"); ("102", "2")]))
         :: (Delta <$> [Data (Some [("100", "0"); ("98", "7")]) None]))
        (BybitOrderBookManager.initialize ["ETHUSDT"]
           BybitOrderBookManager.constructor)
      = (Normal (), thism)
      ∧ BybitOrderBookManager.orderBooks thism !! "ETHUSDT" = Some bkm
      ∧ OrderBookManager.run decimal "ETHUSDT"
          (Snapshot (Data (Some [("100", "5"); ("99", "3")])
                          (Some [("101", "4"); ("102", "2")]))
           :: (Delta <$> [Data (Some [("100", "0"); ("98", "7")]) None]))
          (OrderBookManager.initialize ["ETHUSDT"] OrderBookManager.constructor)
        = (Normal (), thist)
      ∧ OrderBookManager.orderBooks thist !! "ETHUSDT" = Some bkt
      ∧ same_levels bkm bkt.
Proof.
  assert ("ETHUSDT" ∈ ["ETHUSDT"]) as Hin by (apply list_elem_of_here).
  assert (ranked_event decimal
            (Snapshot (Data (Some [("100", "5"); ("99", "3")])
                            (Some [("101", "4"); ("102", "2")])))) as Hs.
  { repeat constructor. }
  assert (Forall (λ d, ranked_event decimal (Delta d))
            [Data (Some [("100", "0"); ("98", "7")]) None]) as Hd.
  { repeat constructor. }
  split; [exact Hin |]. split; [exact Hs |]. split; [exact Hd |].
  exact (strategies_agree decimal ["ETHUSDT"] "ETHUSDT" _ _ Hin Hs Hd).
Defined.

(** ** Further properties of the managers *)

Section Exact.
Context {raw : Type} (Number : raw → Z).

Lemma merge_getOrderBook_known pair depth this bk :
  BybitOrderBookManager.orderBooks this !! pair = Some bk →
  BybitOrderBookManager.getOrderBook pair depth this
  = (Normal
       (BybitOrderBookManager.Result
          (BybitOrderBookManager.slice0 (BybitOrderBookManager.bids bk)
             (default 200 depth))
          (BybitOrderBookManager.slice0 (BybitOrderBookManager.asks bk)
             (default 200 depth))),
     BybitOrderBookManager.Manager (BybitOrderBookManager.orderBooks this)
       (BybitOrderBookManager.Counters
          (BybitOrderBookManager.snapshotCount (BybitOrderBookManager.stats this))
          (BybitOrderBookManager.deltaCount (BybitOrderBookManager.stats this))
          (S (BybitOrderBookManager.getOrderBookCount
                (BybitOrderBookManager.stats this))))).
Proof. intros H. unfold BybitOrderBookManager.getOrderBook. by rewrite H. Qed.

Lemma tree_getOrderBook_known pair depth this bk :
  OrderBookManager.orderBooks this !! pair = Some bk →
  OrderBookManager.getOrderBook pair depth this
  = (Normal
       (OrderBookManager.Result
          (to_quote <$> take (Z.to_nat (default 200 depth))
                          (RBTree.iterator (OrderBookManager.bids bk)))
          (to_quote <$> take (Z.to_nat (default 200 depth))
                          (RBTree.iterator (OrderBookManager.asks bk)))),
     OrderBookManager.Manager (OrderBookManager.orderBooks this)
       (OrderBookManager.Counters
          (OrderBookManager.snapshotCount (OrderBookManager.stats this))
          (OrderBookManager.deltaCount (OrderBookManager.stats this))
          (S (OrderBookManager.getOrderBookCount (OrderBookManager.stats this)))
          (OrderBookManager.bookSize (OrderBookManager.stats this)))).
Proof.
  intros H. unfold OrderBookManager.getOrderBook. rewrite H.
  rewrite !collect_take. cbn [app]. by rewrite Z.sub_0_r.
Qed.

Lemma merge_on_update_exact pair ev this bk :
  BybitOrderBookManager.orderBooks this !! pair = Some bk →
  BybitOrderBookManager.on_update Number pair ev this
  = (Normal (),
     BybitOrderBookManager.Manager
       (<[pair := merge_step Number bk ev]> (BybitOrderBookManager.orderBooks this))
       (merge_count ev (BybitOrderBookManager.stats this))).
Proof.
  intros H. destruct ev as [d | d]; unfold BybitOrderBookManager.on_update.
  - unfold BybitOrderBookManager.processSnapshot. by rewrite H.
  - destruct (merge_processDelta_known Number pair d this bk H) as [st E].
    assert (st = BybitOrderBookManager.Counters
                   (BybitOrderBookManager.snapshotCount
                      (BybitOrderBookManager.stats this))
                   (S (BybitOrderBookManager.deltaCount
                         (BybitOrderBookManager.stats this)))
                   (BybitOrderBookManager.getOrderBookCount
                      (BybitOrderBookManager.stats this))) as ->.
    { revert E. unfold BybitOrderBookManager.processDelta. rewrite H.
      destruct (has_entries (field_b d)), (has_entries (field_a d));
        intros [= _ E]; exact (eq_sym E). }
    rewrite E.
    erewrite merge_getOrderBook_known by apply lookup_insert_eq.
    done.
Qed.

Lemma tree_on_update_exact pair ev this bk :
  OrderBookManager.orderBooks this !! pair = Some bk →
  OrderBookManager.on_update Number pair ev this
  = (Normal (),
     OrderBookManager.Manager
       (<[pair := tree_step Number bk ev]> (OrderBookManager.orderBooks this))
       (tree_count ev (tree_step Number bk ev) (OrderBookManager.stats this))).
Proof.
  intros H. destruct ev as [d | d]; unfold OrderBookManager.on_update.
  - unfold OrderBookManager.processSnapshot, tree_step, parsed. rewrite H.
    by rewrite !foldl_fmap.
  - assert (OrderBookManager.processDelta Number pair d this
            = (Normal (),
               OrderBookManager.Manager
                 (<[pair := tree_step Number bk (Delta d)]>
                    (OrderBookManager.orderBooks this))
                 (OrderBookManager.Counters
                    (OrderBookManager.snapshotCount (OrderBookManager.stats this))
                    (S (OrderBookManager.deltaCount (OrderBookManager.stats this)))
                    (OrderBookManager.getOrderBookCount (OrderBookManager.stats this))
                    (RBTree.size
                       (OrderBookManager.bids (tree_step Number bk (Delta d))))))) as E.
    { unfold OrderBookManager.processDelta, tree_step, parsed. rewrite H.
      rewrite !foldl_fmap.
      by destruct (field_b d) as [[|x xs] |], (field_a d) as [[|y ys] |]. }
    rewrite E.
    erewrite tree_getOrderBook_known by apply lookup_insert_eq.
    done.
Qed.
End Exact.

(** X1. [initialize] gives every listed instrument an empty book, replacing
    whatever book it had, keeps the book of every other instrument, and
    does not touch the counters. *)
Theorem initialize_books (pairs : list string) (pair : string) :
  (∀ this,
     BybitOrderBookManager.orderBooks
       (BybitOrderBookManager.initialize pairs this) !! pair
     = (if decide (pair ∈ pairs)
        then Some (BybitOrderBookManager.Book [] [])
        else BybitOrderBookManager.orderBooks this !! pair)
     ∧ BybitOrderBookManager.stats (BybitOrderBookManager.initialize pairs this)
       = BybitOrderBookManager.stats this)
  ∧ (∀ this,
       OrderBookManager.orderBooks
         (OrderBookManager.initialize pairs this) !! pair
       = (if decide (pair ∈ pairs)
          then Some (OrderBookManager.Book
                       (RBTree.create OrderBookManager.bids_comparator)
                       (RBTree.create OrderBookManager.asks_comparator))
          else OrderBookManager.orderBooks this !! pair)
       ∧ OrderBookManager.stats (OrderBookManager.initialize pairs this)
         = OrderBookManager.stats this).
Proof.
  split; intros this; (split; [| done]).
  - unfold BybitOrderBookManager.initialize.
    cbn [BybitOrderBookManager.orderBooks]. apply foldl_insert_lookup.
  - unfold OrderBookManager.initialize.
    cbn [OrderBookManager.orderBooks]. apply foldl_insert_lookup.
Qed.

(** X2. A call for one instrument never changes the book of another
    instrument: [processSnapshot], [processDelta] and [getOrderBook] of both
    managers leave every other entry of [orderBooks] as it was. *)
Theorem other_instruments_untouched {raw : Type} (Number : raw → Z)
    (pair other : string) (msg : data raw) (depth : option Z) :
  pair ≠ other →
  (∀ this,
     BybitOrderBookManager.orderBooks
       (BybitOrderBookManager.processSnapshot Number pair msg this).2 !! other
     = BybitOrderBookManager.orderBooks this !! other
     ∧ BybitOrderBookManager.orderBooks
         (BybitOrderBookManager.processDelta Number pair msg this).2 !! other
       = BybitOrderBookManager.orderBooks this !! other
     ∧ BybitOrderBookManager.orderBooks
         (BybitOrderBookManager.getOrderBook pair depth this).2 !! other
       = BybitOrderBookManager.orderBooks this !! other)
  ∧ (∀ this,
       OrderBookManager.orderBooks
         (OrderBookManager.processSnapshot Number pair msg this).2 !! other
       = OrderBookManager.orderBooks this !! other
       ∧ OrderBookManager.orderBooks
           (OrderBookManager.processDelta Number pair msg this).2 !! other
         = OrderBookManager.orderBooks this !! other
       ∧ OrderBookManager.orderBooks
           (OrderBookManager.getOrderBook pair depth this).2 !! other
         = OrderBookManager.orderBooks this !! other).
Proof.
  intros Hne. split; intros this.
  - destruct (BybitOrderBookManager.orderBooks this !! pair) as [bk |] eqn:Hbk.
    + destruct (merge_processSnapshot_known Number pair msg this bk Hbk) as [s1 ->].
      destruct (merge_processDelta_known Number pair msg this bk Hbk) as [s2 ->].
      rewrite (merge_getOrderBook_known pair depth this bk Hbk).
      cbn [snd BybitOrderBookManager.orderBooks].
      by rewrite !lookup_insert_ne.
    + rewrite (merge_processSnapshot_unknown Number pair msg this Hbk).
      rewrite (merge_processDelta_unknown Number pair msg this Hbk).
      rewrite (merge_getOrderBook_unknown pair depth this Hbk).
      by destruct (has_entries (field_b msg) || has_entries (field_a msg)).
  - destruct (OrderBookManager.orderBooks this !! pair) as [bk |] eqn:Hbk.
    + destruct (tree_processSnapshot_known Number pair msg this bk Hbk) as [s1 ->].
      destruct (tree_processDelta_known Number pair msg this bk Hbk) as [s2 ->].
      rewrite (tree_getOrderBook_known pair depth this bk Hbk).
      cbn [snd OrderBookManager.orderBooks].
      by rewrite !lookup_insert_ne.
    + rewrite (tree_processSnapshot_unknown Number pair msg this Hbk).
      rewrite (tree_processDelta_unknown Number pair msg this Hbk).
      by rewrite (tree_getOrderBook_unknown pair depth this Hbk).
Qed.

Lemma other_instruments_untouched_witness :
  "ETHUSDT" ≠ "BTCUSDT"
  ∧ BybitOrderBookManager.orderBooks
      (BybitOrderBookManager.processSnapshot decimal "ETHUSDT"
         (Data (Some [("100", "5")]) None)
         (BybitOrderBookManager.initialize ["ETHUSDT"; "BTCUSDT"]
            BybitOrderBookManager.constructor)).2 !! "BTCUSDT"
    = BybitOrderBookManager.orderBooks
        (BybitOrderBookManager.initialize ["ETHUSDT"; "BTCUSDT"]
           BybitOrderBookManager.constructor) !! "BTCUSDT".
Proof.
  assert ("ETHUSDT" ≠ "BTCUSDT") as Hne by discriminate.
  split; [exact Hne |].
  exact (proj1 (proj1 (other_instruments_untouched decimal "ETHUSDT" "BTCUSDT"
                         (Data (Some [("100", "5")]) None) None Hne) _)).
Defined.



Section RunsExact.
Context {raw : Type} (Number : raw → Z).

Lemma snapshots_in_cons (ev : event raw) events :
  snapshots_in (ev :: events)
  = ((if is_snapshot ev then 1 else 0) + snapshots_in events)%nat.
Proof.
  unfold snapshots_in. rewrite filter_cons.
  by destruct ev.
Qed.

Lemma deltas_in_cons (ev : event raw) events :
  deltas_in (ev :: events)
  = ((if is_snapshot ev then 0 else 1) + deltas_in events)%nat.
Proof.
  unfold deltas_in. rewrite filter_cons.
  by destruct ev.
Qed.

Lemma merge_run_counters pair events this bk :
  BybitOrderBookManager.orderBooks this !! pair = Some bk →
  ∃ this',
    BybitOrderBookManager.run Number pair events this = (Normal (), this')
    ∧ BybitOrderBookManager.snapshotCount (BybitOrderBookManager.stats this')
      = (BybitOrderBookManager.snapshotCount (BybitOrderBookManager.stats this)
         + snapshots_in events)%nat
    ∧ BybitOrderBookManager.deltaCount (BybitOrderBookManager.stats this')
      = (BybitOrderBookManager.deltaCount (BybitOrderBookManager.stats this)
         + deltas_in events)%nat
    ∧ BybitOrderBookManager.getOrderBookCount (BybitOrderBookManager.stats this')
      = (BybitOrderBookManager.getOrderBookCount (BybitOrderBookManager.stats this)
         + deltas_in events)%nat.
Proof.
  revert this bk. induction events as [|ev events IH]; intros this bk H.
  - exists this. unfold snapshots_in, deltas_in. simpl.
    repeat split; lia.
  - cbn [BybitOrderBookManager.run].
    rewrite (merge_on_update_exact Number pair ev this bk H).
    edestruct IH as (this' & -> & Hs & Hd & Hg).
    { cbn [BybitOrderBookManager.orderBooks]. apply lookup_insert_eq. }
    exists this'. split; [done |].
    rewrite Hs, Hd, Hg, snapshots_in_cons, deltas_in_cons.
    cbn [BybitOrderBookManager.stats].
    destruct ev; cbn; lia.
Qed.

Lemma tree_run_counters pair events this bk :
  OrderBookManager.orderBooks this !! pair = Some bk →
  ∃ this',
    OrderBookManager.run Number pair events this = (Normal (), this')
    ∧ OrderBookManager.orderBooks this' !! pair
      = Some (foldl (tree_step Number) bk events)
    ∧ OrderBookManager.snapshotCount (OrderBookManager.stats this')
      = (OrderBookManager.snapshotCount (OrderBookManager.stats this)
         + snapshots_in events)%nat
    ∧ OrderBookManager.deltaCount (OrderBookManager.stats this')
      = (OrderBookManager.deltaCount (OrderBookManager.stats this)
         + deltas_in events)%nat
    ∧ OrderBookManager.getOrderBookCount (OrderBookManager.stats this')
      = (OrderBookManager.getOrderBookCount (OrderBookManager.stats this)
         + deltas_in events)%nat
    ∧ (events ≠ [] →
       OrderBookManager.bookSize (OrderBookManager.stats this')
       = RBTree.size (OrderBookManager.bids (foldl (tree_step Number) bk events))).
Proof.
  revert this bk. induction events as [|ev events IH]; intros this bk H.
  - exists this. unfold snapshots_in, deltas_in. simpl.
    repeat split; (done || lia).
  - cbn [OrderBookManager.run].
    rewrite (tree_on_update_exact Number pair ev this bk H).
    destruct (IH (OrderBookManager.Manager
                    (<[pair := tree_step Number bk ev]>
                       (OrderBookManager.orderBooks this))
                    (tree_count ev (tree_step Number bk ev)
                       (OrderBookManager.stats this)))
                (tree_step Number bk ev))
      as (this' & Hrun & Hbk & Hs & Hd & Hg & Hsize).
    { cbn [OrderBookManager.orderBooks]. apply lookup_insert_eq. }
    rewrite Hrun.
    exists this'. split; [done |]. split; [done |].
    rewrite Hs, Hd, Hg, snapshots_in_cons, deltas_in_cons.
    cbn [OrderBookManager.stats].
    split; [destruct ev; cbn; lia |].
    split; [destruct ev; cbn; lia |].
    split; [destruct ev; cbn; lia |].
    intros _. destruct events as [|ev' events']; [| by apply Hsize].
    cbn [OrderBookManager.run] in Hrun. injection Hrun as <-.
    cbn [OrderBookManager.stats foldl]. by destruct ev.
Qed.
End RunsExact.

(** X4. A run of the ['update'] handler over the messages of an instrument
    that has a book never throws, and raises the counters by what it
    processed: [snapshotCount] by the number of snapshot messages, and both
    [deltaCount] and [getOrderBookCount] by the number of delta messages
    (the handler queries the book once after every delta). *)
Theorem run_counters {raw : Type} (Number : raw → Z)
    (pair : string) (events : list (event raw)) :
  (∀ this bk,
     BybitOrderBookManager.orderBooks this !! pair = Some bk →
     ∃ this',
       BybitOrderBookManager.run Number pair events this = (Normal (), this')
       ∧ BybitOrderBookManager.snapshotCount (BybitOrderBookManager.stats this')
         = (BybitOrderBookManager.snapshotCount (BybitOrderBookManager.stats this)
            + snapshots_in events)%nat
       ∧ BybitOrderBookManager.deltaCount (BybitOrderBookManager.stats this')
         = (BybitOrderBookManager.deltaCount (BybitOrderBookManager.stats this)
            + deltas_in events)%nat
       ∧ BybitOrderBookManager.getOrderBookCount (BybitOrderBookManager.stats this')
         = (BybitOrderBookManager.getOrderBookCount
              (BybitOrderBookManager.stats this)
            + deltas_in events)%nat)
  ∧ (∀ this bk,
       OrderBookManager.orderBooks this !! pair = Some bk →
       ∃ this',
         OrderBookManager.run Number pair events this = (Normal (), this')
         ∧ OrderBookManager.snapshotCount (OrderBookManager.stats this')
           = (OrderBookManager.snapshotCount (OrderBookManager.stats this)
              + snapshots_in events)%nat
         ∧ OrderBookManager.deltaCount (OrderBookManager.stats this')
           = (OrderBookManager.deltaCount (OrderBookManager.stats this)
              + deltas_in events)%nat
         ∧ OrderBookManager.getOrderBookCount (OrderBookManager.stats this')
           = (OrderBookManager.getOrderBookCount (OrderBookManager.stats this)
              + deltas_in events)%nat).
Proof.
  split; intros this bk Hbk.
  - exact (merge_run_counters Number pair events this bk Hbk).
  - destruct (tree_run_counters Number pair events this bk Hbk)
      as (this' & Hrun & _ & Hs & Hd & Hg & _).
    by exists this'.
Qed.

Lemma run_counters_witness :
  ∃ this',
    BybitOrderBookManager.run decimal "ETHUSDT"
      [Snapshot (Data (Some [("100", "5")]) None);
       Delta (Data (Some [("100", "0")]) None);
       Delta (Data None (Some [("101", "4")]))]
      (BybitOrderBookManager.initialize ["ETHUSDT"]
         BybitOrderBookManager.constructor)
    = (Normal (), this')
    ∧ BybitOrderBookManager.snapshotCount (BybitOrderBookManager.stats this') = 1%nat
    ∧ BybitOrderBookManager.deltaCount (BybitOrderBookManager.stats this') = 2%nat
    ∧ BybitOrderBookManager.getOrderBookCount (BybitOrderBookManager.stats this')
      = 2%nat.
Proof.
  exact (proj1 (run_counters decimal "ETHUSDT"
                  [Snapshot (Data (Some [("100", "5")]) None);
                   Delta (Data (Some [("100", "0")]) None);
                   Delta (Data None (Some [("101", "4")]))])
           (BybitOrderBookManager.initialize ["ETHUSDT"]
              BybitOrderBookManager.constructor)
           (BybitOrderBookManager.Book [] []) eq_refl).
Defined.

(** X5. After a non-empty run of the tree manager's handler over the
    messages of an instrument that has a book, the statistic [bookSize]
    is the number of bid levels that instrument now stores; the ask side
    does not count. *)
Theorem bookSize_counts_bids {raw : Type} (Number : raw → Z)
    (pair : string) (events : list (event raw)) this bk :
  OrderBookManager.orderBooks this !! pair = Some bk →
  events ≠ [] →
  ∃ this' bk',
    OrderBookManager.run Number pair events this = (Normal (), this')
    ∧ OrderBookManager.orderBooks this' !! pair = Some bk'
    ∧ OrderBookManager.bookSize (OrderBookManager.stats this')
      = length (RBTree.nodes (OrderBookManager.bids bk')).
Proof.
  intros Hbk Hne.
  destruct (tree_run_counters Number pair events this bk Hbk)
    as (this' & Hrun & Hbk' & _ & _ & _ & Hsize).
  eexists this', _. split; [done |]. split; [done |]. by apply Hsize.
Qed.

Lemma bookSize_counts_bids_witness :
  ∃ this' bk',
    OrderBookManager.run decimal "ETHUSDT"
      [Snapshot (Data (Some [("100", "5"); ("99", "3")]) (Some [("101", "4")]));
       Delta (Data (Some [("100", "0")]) None)]
      (OrderBookManager.initialize ["ETHUSDT"] OrderBookManager.constructor)
    = (Normal (), this')
    ∧ OrderBookManager.orderBooks this' !! "ETHUSDT" = Some bk'
    ∧ OrderBookManager.bookSize (OrderBookManager.stats this')
      = length (RBTree.nodes (OrderBookManager.bids bk')).
Proof.
  apply (bookSize_counts_bids decimal "ETHUSDT" _
           (OrderBookManager.initialize ["ETHUSDT"] OrderBookManager.constructor)
           (OrderBookManager.Book
              (RBTree.create OrderBookManager.bids_comparator)
              (RBTree.create OrderBookManager.asks_comparator))).
  - reflexivity.
  - discriminate.
Defined.

(** ** Further properties of the batch update *)

Lemma merge_list_length ascending current updates :
  (length (merge_list ascending current updates)
   ≤ length current + length updates)%nat.
Proof.
  revert updates. induction current as [|c cs IH]; intros updates.
  - simpl. induction updates as [|u us IHu]; [done |].
    change ((u :: us) ≫= kept) with (kept u ++ (us ≫= kept)).
    rewrite length_app. unfold kept at 1. case_bool_decide; simpl; lia.
  - induction updates as [|u us IHu]; [simpl; lia |].
    rewrite merge_list_cons.
    assert (length (kept u) ≤ 1)%nat as Hk.
    { unfold kept. case_bool_decide; simpl; lia. }
    repeat case_bool_decide.
    + specialize (IH (u :: us)). simpl in *. lia.
    + rewrite length_app. simpl in *. lia.
    + rewrite length_app. specialize (IH us). simpl in *. lia.
Qed.

(** X6. On a current array and a batch that are both sorted strictly by
    rank, [mergeSortedUpdates] returns an array sorted strictly by rank in
    which the size stored at a price is the one the batch gives when the
    batch names the price (nothing when that size is 0) and the previous
    one otherwise. *)
Theorem mergeSortedUpdates_ranked (ascending : bool) (current updates : list level) :
  ranked ascending current →
  ranked ascending updates →
  ranked ascending
    (BybitOrderBookManager.mergeSortedUpdates current updates ascending)
  ∧ ∀ p,
      size_at p (BybitOrderBookManager.mergeSortedUpdates current updates ascending)
      = match size_at p updates with
        | Some q => if bool_decide (q = 0) then None else Some q
        | None => size_at p current
        end.
Proof.
  intros Hc Hu. rewrite mergeSortedUpdates_merge_list.
  split; [by apply merge_list_ranked |].
  intros p. by rewrite (merge_list_size_at ascending).
Qed.

Lemma mergeSortedUpdates_ranked_witness :
  ranked false [(100, 5); (99, 3)]
  ∧ ranked false [(100, 0); (98, 7)]
  ∧ ranked false
      (BybitOrderBookManager.mergeSortedUpdates
         [(100, 5); (99, 3)] [(100, 0); (98, 7)] false)
  ∧ size_at 98
      (BybitOrderBookManager.mergeSortedUpdates
         [(100, 5); (99, 3)] [(100, 0); (98, 7)] false)
    = Some 7.
Proof.
  assert (ranked false [(100, 5); (99, 3)]) as Hc by repeat constructor.
  assert (ranked false [(100, 0); (98, 7)]) as Hu by repeat constructor.
  split; [exact Hc |]. split; [exact Hu |].
  destruct (mergeSortedUpdates_ranked false _ _ Hc Hu) as [Hr Hs].
  split; [exact Hr | exact (Hs 98)].
Defined.

(** X7. Whatever the two arrays hold, sorted or not, [mergeSortedUpdates]
    invents no level and keeps no removal: every level of the result is a
    level of the current array or an update whose size is not 0, and the
    result is no longer than the two arrays together.  An empty batch
    returns the current array, and an empty current array returns the
    updates whose size is not 0. *)
Theorem mergeSortedUpdates_levels (ascending : bool) (current updates : list level) :
  (∀ x,
     x ∈ BybitOrderBookManager.mergeSortedUpdates current updates ascending →
     x ∈ current ∨ (x ∈ updates ∧ x.2 ≠ 0))
  ∧ (length (BybitOrderBookManager.mergeSortedUpdates current updates ascending)
     ≤ length current + length updates)%nat
  ∧ BybitOrderBookManager.mergeSortedUpdates current [] ascending = current
  ∧ BybitOrderBookManager.mergeSortedUpdates [] updates ascending
    = filter (λ u, u.2 ≠ 0) updates.
Proof.
  rewrite !mergeSortedUpdates_merge_list.
  split; [| split; [apply merge_list_length | split; [apply merge_list_nil_r |]]].
  - apply Forall_forall.
    apply merge_list_Forall_kept.
    + apply Forall_forall. intros x Hx. by left.
    + apply Forall_forall. intros x Hx Hq. by right.
  - simpl. induction updates as [|u us IH]; [done |].
    change ((u :: us) ≫= kept) with (kept u ++ (us ≫= kept)).
    rewrite filter_cons, IH. unfold kept.
    case_bool_decide; by case_decide.
Qed.

(** X8. On arrays sorted strictly by rank, applying the same batch a second
    time changes nothing. *)
Theorem mergeSortedUpdates_idempotent (ascending : bool)
    (current updates : list level) :
  ranked ascending current →
  ranked ascending updates →
  BybitOrderBookManager.mergeSortedUpdates
    (BybitOrderBookManager.mergeSortedUpdates current updates ascending)
    updates ascending
  = BybitOrderBookManager.mergeSortedUpdates current updates ascending.
Proof.
  intros Hc Hu. rewrite !mergeSortedUpdates_merge_list.
  pose proof (merge_list_ranked ascending _ _ Hc Hu) as Hm.
  apply (ranked_ext ascending); [by apply merge_list_ranked | done |].
  intros p. rewrite !(merge_list_size_at ascending) by done.
  unfold size_after. rewrite (merge_list_size_at ascending) by done.
  unfold size_after. by destruct (size_at p updates).
Qed.

Lemma mergeSortedUpdates_idempotent_witness :
  ranked true [(101, 4); (102, 2)]
  ∧ ranked true [(101, 0); (103, 9)]
  ∧ BybitOrderBookManager.mergeSortedUpdates
      (BybitOrderBookManager.mergeSortedUpdates
         [(101, 4); (102, 2)] [(101, 0); (103, 9)] true)
      [(101, 0); (103, 9)] true
    = BybitOrderBookManager.mergeSortedUpdates
        [(101, 4); (102, 2)] [(101, 0); (103, 9)] true.
Proof.
  assert (ranked true [(101, 4); (102, 2)]) as Hc by repeat constructor.
  assert (ranked true [(101, 0); (103, 9)]) as Hu by repeat constructor.
  split; [exact Hc |]. split; [exact Hu |].
  exact (mergeSortedUpdates_idempotent true _ _ Hc Hu).
Defined.

(** ** Further properties of the tree manager and of the queries *)

Lemma tree_run_tree_book {raw : Type} (Number : raw → Z) events bk :
  tree_book bk → tree_book (foldl (tree_step Number) bk events).
Proof.
  revert bk. induction events as [|ev events IH]; intros bk Hbk; [done |].
  simpl. apply IH. by apply step_tree_book.
Qed.

(** X9. The tree manager keeps both sides sorted strictly by rank for every
    sequence of snapshot and delta messages, sorted or not: after any run
    from [initialize], the bid entries have strictly decreasing prices and
    the ask entries strictly increasing prices. *)
Theorem tree_sides_stay_ranked {raw : Type} (Number : raw → Z)
    (pairs : list string) (pair : string) (events : list (event raw)) :
  pair ∈ pairs →
  ∃ this bk,
    OrderBookManager.run Number pair events
      (OrderBookManager.initialize pairs OrderBookManager.constructor)
    = (Normal (), this)
    ∧ OrderBookManager.orderBooks this !! pair = Some bk
    ∧ ranked false (RBTree.nodes (OrderBookManager.bids bk))
    ∧ ranked true (RBTree.nodes (OrderBookManager.asks bk)).
Proof.
  intros Hin.
  destruct (tree_run_known Number pair events _ _
              (tree_initialize_lookup pairs pair OrderBookManager.constructor Hin))
    as (this & Hrun & Hbk).
  eexists this, _. split; [done |]. split; [done |].
  destruct (tree_run_tree_book Number events _ tree_book_create)
    as [[_ Hb] [_ Ha]].
  done.
Qed.

Lemma tree_sides_stay_ranked_witness :
  "ETHUSDT" ∈ ["ETHUSDT"]
  ∧ ∃ this bk,
      OrderBookManager.run decimal "ETHUSDT"
        [Snapshot (Data (Some [("99", "3"); ("100", "5"); ("99", "8")]) None);
         Delta (Data (Some [("98", "7"); ("101", "1")]) None)]
        (OrderBookManager.initialize ["ETHUSDT"] OrderBookManager.constructor)
      = (Normal (), this)
      ∧ OrderBookManager.orderBooks this !! "ETHUSDT" = Some bk
      ∧ ranked false (RBTree.nodes (OrderBookManager.bids bk))
      ∧ ranked true (RBTree.nodes (OrderBookManager.asks bk)).
Proof.
  assert ("ETHUSDT" ∈ ["ETHUSDT"]) as Hin by (apply list_elem_of_here).
  split; [exact Hin |].
  exact (tree_sides_stay_ranked decimal ["ETHUSDT"] "ETHUSDT" _ Hin).
Defined.

(** X10. One update of a tree side is an upsert by price: afterwards the
    side is still a ranked tree side, a lookup with [find] at the price of
    the update returns the update itself when its size is not 0 and nothing
    when its size is 0, and the size stored at every other price is what it
    was. *)
Theorem update_side_upsert (ascending : bool) (side : RBTree.t level) (p q : Z) :
  tree_side ascending side →
  tree_side ascending (OrderBookManager.update_side side (p, q))
  ∧ RBTree.find (OrderBookManager.update_side side (p, q))
      (OrderBookManager.key p None)
    = (if bool_decide (q = 0) then None else Some (p, q))
  ∧ ∀ p', p' ≠ p →
      size_at p' (RBTree.nodes (OrderBookManager.update_side side (p, q)))
      = size_at p' (RBTree.nodes side).
Proof.
  intros Hs.
  pose proof (update_side_tree_side ascending side (p, q) Hs) as Hs'.
  split; [exact Hs' |]. split.
  - unfold RBTree.find. destruct Hs' as [Hc Hr]. rewrite Hc.
    rewrite (find_nodes_size_at ascending) by done.
    cbn [OrderBookManager.key fst].
    rewrite (update_side_size_at ascending) by done. cbn [fst snd].
    rewrite bool_decide_eq_true_2 by done. unfold patched.
    by case_bool_decide.
  - intros p' Hp'. rewrite (update_side_size_at ascending) by done.
    cbn [fst]. rewrite bool_decide_eq_false_2; [done | congruence].
Qed.

Lemma update_side_upsert_witness :
  tree_side false (RBTree.Tree OrderBookManager.bids_comparator [(100, 5); (99, 3)])
  ∧ RBTree.find
      (OrderBookManager.update_side
         (RBTree.Tree OrderBookManager.bids_comparator [(100, 5); (99, 3)]) (99, 8))
      (OrderBookManager.key 99 None)
    = Some (99, 8).
Proof.
  assert (tree_side false
            (RBTree.Tree OrderBookManager.bids_comparator [(100, 5); (99, 3)]))
    as Hs.
  { split; [reflexivity | repeat constructor]. }
  split; [exact Hs |].
  exact (proj1 (proj2 (update_side_upsert false _ 99 8 Hs))).
Defined.

(** X11. A snapshot resynchronises the book: whatever messages were handled
    before it, the book an instrument has after a snapshot is the book the
    snapshot alone would give, in both managers. *)
Theorem snapshot_resynchronises {raw : Type} (Number : raw → Z)
    (pairs : list string) (pair : string)
    (events : list (event raw)) (snapshot : data raw) :
  pair ∈ pairs →
  (∃ this1 this2 bk,
     BybitOrderBookManager.run Number pair (events ++ [Snapshot snapshot])
       (BybitOrderBookManager.initialize pairs BybitOrderBookManager.constructor)
     = (Normal (), this1)
     ∧ BybitOrderBookManager.run Number pair [Snapshot snapshot]
         (BybitOrderBookManager.initialize pairs BybitOrderBookManager.constructor)
       = (Normal (), this2)
     ∧ BybitOrderBookManager.orderBooks this1 !! pair = Some bk
     ∧ BybitOrderBookManager.orderBooks this2 !! pair = Some bk)
  ∧ (∃ this1 this2 bk,
       OrderBookManager.run Number pair (events ++ [Snapshot snapshot])
         (OrderBookManager.initialize pairs OrderBookManager.constructor)
       = (Normal (), this1)
       ∧ OrderBookManager.run Number pair [Snapshot snapshot]
           (OrderBookManager.initialize pairs OrderBookManager.constructor)
         = (Normal (), this2)
       ∧ OrderBookManager.orderBooks this1 !! pair = Some bk
       ∧ OrderBookManager.orderBooks this2 !! pair = Some bk).
Proof.
  intros Hin. split.
  - pose proof (merge_initialize_lookup pairs pair
                  BybitOrderBookManager.constructor Hin) as H0.
    destruct (merge_run_known Number pair (events ++ [Snapshot snapshot]) _ _ H0)
      as (this1 & Hrun1 & Hbk1).
    destruct (merge_run_known Number pair [Snapshot snapshot] _ _ H0)
      as (this2 & Hrun2 & Hbk2).
    eexists this1, this2, _. split; [done |]. split; [done |].
    split; [| exact Hbk2].
    rewrite Hbk1. by rewrite foldl_app.
  - pose proof (tree_initialize_lookup pairs pair
                  OrderBookManager.constructor Hin) as H0.
    destruct (tree_run_known Number pair (events ++ [Snapshot snapshot]) _ _ H0)
      as (this1 & Hrun1 & Hbk1).
    destruct (tree_run_known Number pair [Snapshot snapshot] _ _ H0)
      as (this2 & Hrun2 & Hbk2).
    eexists this1, this2, _. split; [done |]. split; [done |].
    split; [| exact Hbk2].
    rewrite Hbk1, foldl_app. f_equal.
    pose proof (tree_run_tree_book Number events _ tree_book_create)
      as [[Hcb _] [Hca _]].
    cbn [foldl tree_step]. unfold RBTree.clear.
    by rewrite Hcb, Hca.
Qed.

Lemma snapshot_resynchronises_witness :
  "ETHUSDT" ∈ ["ETHUSDT"]
  ∧ ∃ this1 this2 bk,
      BybitOrderBookManager.run decimal "ETHUSDT"
        ([Snapshot (Data (Some [("100", "5")]) None);
          Delta (Data (Some [("99", "3")]) None)]
         ++ [Snapshot (Data (Some [("98", "1")]) (Some [("101", "4")]))])
        (BybitOrderBookManager.initialize ["ETHUSDT"]
           BybitOrderBookManager.constructor)
      = (Normal (), this1)
      ∧ BybitOrderBookManager.run decimal "ETHUSDT"
          [Snapshot (Data (Some [("98", "1")]) (Some [("101", "4")]))]
          (BybitOrderBookManager.initialize ["ETHUSDT"]
             BybitOrderBookManager.constructor)
        = (Normal (), this2)
      ∧ BybitOrderBookManager.orderBooks this1 !! "ETHUSDT" = Some bk
      ∧ BybitOrderBookManager.orderBooks this2 !! "ETHUSDT" = Some bk.
Proof.
  assert ("ETHUSDT" ∈ ["ETHUSDT"]) as Hin by (apply list_elem_of_here).
  split; [exact Hin |].
  exact (proj1 (snapshot_resynchronises decimal ["ETHUSDT"] "ETHUSDT"
                  [Snapshot (Data (Some [("100", "5")]) None);
                   Delta (Data (Some [("99", "3")]) None)]
                  (Data (Some [("98", "1")]) (Some [("101", "4")])) Hin)).
Defined.

Lemma slice0_negative {A : Type} (l : list A) (n : nat) :
  (0 < n)%nat →
  BybitOrderBookManager.slice0 l (- Z.of_nat n) = take (length l - n) l.
Proof.
  intros Hn. unfold BybitOrderBookManager.slice0.
  rewrite bool_decide_eq_true_2 by lia. f_equal. lia.
Qed.

(** X12. With a negative depth the two managers differ: the array-merge
    query, a [slice(0, depth)], returns every stored level of a side except
    its last [n], while the loop of the tree query returns no level. *)
Theorem getOrderBook_negative_depth (pair : string) (n : nat) :
  (0 < n)%nat →
  (∀ this bk,
     BybitOrderBookManager.orderBooks this !! pair = Some bk →
     (BybitOrderBookManager.getOrderBook pair (Some (- Z.of_nat n)) this).1
     = Normal
         (BybitOrderBookManager.Result
            (take (length (BybitOrderBookManager.bids bk) - n)
               (BybitOrderBookManager.bids bk))
            (take (length (BybitOrderBookManager.asks bk) - n)
               (BybitOrderBookManager.asks bk))))
  ∧ (∀ this bk,
       OrderBookManager.orderBooks this !! pair = Some bk →
       (OrderBookManager.getOrderBook pair (Some (- Z.of_nat n)) this).1
       = Normal (OrderBookManager.Result [] [])).
Proof.
  intros Hn. split; intros this bk Hbk.
  - rewrite (merge_getOrderBook_known pair _ this bk Hbk).
    cbn [fst default from_option id]. by rewrite !slice0_negative.
  - rewrite (tree_getOrderBook_known pair _ this bk Hbk).
    cbn [fst default from_option id].
    replace (Z.to_nat (- Z.of_nat n)) with 0%nat by lia. done.
Qed.

Lemma getOrderBook_negative_depth_witness :
  (0 < 1)%nat
  ∧ (BybitOrderBookManager.getOrderBook "ETHUSDT" (Some (- Z.of_nat 1))
       (BybitOrderBookManager.run decimal "ETHUSDT"
          [Snapshot (Data (Some [("100", "5"); ("99", "3")]) None)]
          (BybitOrderBookManager.initialize ["ETHUSDT"]
             BybitOrderBookManager.constructor)).2).1
    = Normal (BybitOrderBookManager.Result [(100, 5)] []).
Proof.
  assert (0 < 1)%nat as Hn by (apply Nat.lt_0_1).
  split; [exact Hn |].
  exact (proj1 (getOrderBook_negative_depth "ETHUSDT" 1 Hn)
           (BybitOrderBookManager.run decimal "ETHUSDT"
              [Snapshot (Data (Some [("100", "5"); ("99", "3")]) None)]
              (BybitOrderBookManager.initialize ["ETHUSDT"]
                 BybitOrderBookManager.constructor)).2
           (BybitOrderBookManager.Book [(100, 5); (99, 3)] []) eq_refl).
Defined.


(** X14. After the same run of ranked messages from [initialize], a depth
    query of the tree manager returns, entry for entry, the levels the
    array-merge manager returns, as [{ price, size }] objects. *)
Theorem queries_agree {raw : Type} (Number : raw → Z)
    (pairs : list string) (pair : string) (events : list (event raw)) (k : nat) :
  pair ∈ pairs →
  Forall (ranked_event Number) events →
  ∃ thism thist resm rest,
    BybitOrderBookManager.run Number pair events
      (BybitOrderBookManager.initialize pairs BybitOrderBookManager.constructor)
    = (Normal (), thism)
    ∧ OrderBookManager.run Number pair events
        (OrderBookManager.initialize pairs OrderBookManager.constructor)
      = (Normal (), thist)
    ∧ (BybitOrderBookManager.getOrderBook pair (Some (Z.of_nat k)) thism).1
      = Normal resm
    ∧ (OrderBookManager.getOrderBook pair (Some (Z.of_nat k)) thist).1
      = Normal rest
    ∧ OrderBookManager.result_bids rest
      = to_quote <$> BybitOrderBookManager.buyOrderBook resm
    ∧ OrderBookManager.result_asks rest
      = to_quote <$> BybitOrderBookManager.sellOrderBook resm.
Proof.
  intros Hin Hev.
  destruct (merge_run_known Number pair events _ _
              (merge_initialize_lookup pairs pair
                 BybitOrderBookManager.constructor Hin))
    as (thism & Hrunm & Hbkm).
  destruct (tree_run_known Number pair events _ _
              (tree_initialize_lookup pairs pair
                 OrderBookManager.constructor Hin))
    as (thist & Hrunt & Hbkt).
  destruct (runs_agree Number events
              (BybitOrderBookManager.Book [] [])
              (OrderBookManager.Book
                 (RBTree.create OrderBookManager.bids_comparator)
                 (RBTree.create OrderBookManager.asks_comparator))
              tree_book_create eq_refl eq_refl Hev) as [Eb Ea].
  eexists thism, thist, _, _.
  split; [done |]. split; [done |].
  rewrite (merge_getOrderBook_known pair _ thism _ Hbkm).
  rewrite (tree_getOrderBook_known pair _ thist _ Hbkt).
  cbn [fst default from_option id].
  split; [done |]. split; [done |].
  cbn [OrderBookManager.result_bids OrderBookManager.result_asks
       BybitOrderBookManager.buyOrderBook BybitOrderBookManager.sellOrderBook].
  unfold RBTree.iterator.
  by rewrite !slice0_of_nat, Nat2Z.id, Eb, Ea.
Qed.

Lemma queries_agree_witness :
  "ETHUSDT" ∈ ["ETHUSDT"]
  ∧ Forall (ranked_event decimal)
      [Snapshot (Data (Some [("100", "5"); ("99", "3")])
                      (Some [("101", "4"); ("102", "2")]));
       Delta (Data (Some [("100", "0"); ("98", "7")]) None)]
  ∧ ∃ thism thist resm rest,
      BybitOrderBookManager.run decimal "ETHUSDT"
        [Snapshot (Data (Some [("100", "5"); ("99", "3")])
                        (Some [("101", "4"); ("102", "2")]));
         Delta (Data (Some [("100", "0"); ("98", "7")]) None)]
        (BybitOrderBookManager.initialize ["ETHUSDT"]
           BybitOrderBookManager.constructor)
      = (Normal (), thism)
      ∧ OrderBookManager.run decimal "ETHUSDT"
          [Snapshot (Data (Some [("100", "5"); ("99", "3")])
                          (Some [("101", "4"); ("102", "2")]));
           Delta (Data (Some [("100", "0"); ("98", "7")]) None)]
          (OrderBookManager.initialize ["ETHUSDT"] OrderBookManager.constructor)
        = (Normal (), thist)
      ∧ (BybitOrderBookManager.getOrderBook "ETHUSDT" (Some (Z.of_nat 1)) thism).1
        = Normal resm
      ∧ (OrderBookManager.getOrderBook "ETHUSDT" (Some (Z.of_nat 1)) thist).1
        = Normal rest
      ∧ OrderBookManager.result_bids rest
        = to_quote <$> BybitOrderBookManager.buyOrderBook resm
      ∧ OrderBookManager.result_asks rest
        = to_quote <$> BybitOrderBookManager.sellOrderBook resm.
Proof.
  assert ("ETHUSDT" ∈ ["ETHUSDT"]) as Hin by (apply list_elem_of_here).
  assert (Forall (ranked_event decimal)
            [Snapshot (Data (Some [("100", "5"); ("99", "3")])
                            (Some [("101", "4"); ("102", "2")]));
             Delta (Data (Some [("100", "0"); ("98", "7")]) None)]) as Hev.
  { repeat constructor. }
  split; [exact Hin |]. split; [exact Hev |].
  exact (queries_agree decimal ["ETHUSDT"] "ETHUSDT" _ 1 Hin Hev).
Defined.
